(** * GA4 monthly category report (app.py): model and verified properties

    The program is a Streamlit script: a form collects a credential file, a
    date range, a selection of GA4 properties and a block of page-path
    regular expressions; one report request is sent per (property, regex)
    pair, the response rows are flattened into records, and the records are
    shown and offered as a CSV download.

    Conventions of the model.
    - A Python [str] is a [string]; each [ascii] stands for one code point
      in the range U+0000..U+00FF, so lengths count characters as Python
      counts them.  [bytes] are [list byte].
    - A Python [int] is a [Z]; a [date] is a record of integers that carries
      the range check the [datetime.date] constructor performs.
    - An uncaught exception is the [Raise] case of [result]; code with
      effects runs in the monad [M], which threads the log of everything
      the script shows or sends.
    - What lies outside the script is a parameter of a run: the client
      loader, the service, the platform (its line terminator) and the
      table widget, which may raise on a frame it cannot display.
    - [strftime] writes the year as the C library does on Linux, without
      padding; [int] skips the whitespace that [int] skips, which is less
      than [str.strip] removes. *)

From Stdlib Require Import String Ascii List ZArith Lia Bool Arith.
From Stdlib Require Import DecimalString DecimalPos DecimalZ Eqdep_dec Finite.
From Stdlib.Strings Require Import Byte.
Import ListNotations.

Local Open Scope string_scope.
Local Open Scope list_scope.
Local Open Scope nat_scope.

(** ** Exceptions and fallible values *)

(** The exceptions a run can die of.  [ExternalError] stands for whatever
    library code outside this repository raises (the Google API client, the
    credential loader, the JSON decoder). *)
Inductive exn : Type :=
| KeyError (key : string)
| IndexError
| ValueError (literal : string)
| ExternalError (what : string).

Inductive result (A : Type) : Type :=
| Ok (a : A)
| Raise (e : exn).

Arguments Ok {A} a.
Arguments Raise {A} e.

Definition bindR {A B : Type} (r : result A) (k : A -> result B) : result B :=
  match r with
  | Ok a => k a
  | Raise e => Raise e
  end.

Notation "'let?' x ':=' e 'in' k" := (bindR e (fun x => k))
  (at level 10, x name, e at level 100, k at level 200).

Definition is_ok {A : Type} (r : result A) : bool :=
  match r with Ok _ => true | Raise _ => false end.

(** [xs[i]] on a Python sequence, for a non-negative literal index. *)
Definition getitem {A : Type} (xs : list A) (i : nat) : result A :=
  match nth_error xs i with
  | Some x => Ok x
  | None => Raise IndexError
  end.

(** [[f(x) for x in xs]] where [f] may raise: the first exception ends
    the comprehension. *)
Fixpoint traverse {A B : Type} (f : A -> result B) (xs : list A) : result (list B) :=
  match xs with
  | [] => Ok []
  | x :: rest =>
      let? y := f x in
      let? ys := traverse f rest in
      Ok (y :: ys)
  end.

(** ** The [str] and [int] built-ins the script relies on *)

Module PyStr.

Definition code (c : ascii) : nat := nat_of_ascii c.

(** [str.isspace] on one character, restricted to U+0000..U+00FF:
    TAB, LF, VT, FF, CR, FS, GS, RS, US, SPACE, NEL and NBSP. *)
Definition isspace (c : ascii) : bool :=
  let n := code c in
  ((9 <=? n) && (n <=? 13)) || ((28 <=? n) && (n <=? 32))
  || (n =? 133) || (n =? 160).

(** The line boundaries of [str.splitlines] in the same range:
    LF, VT, FF, CR, FS, GS, RS and NEL. *)
Definition islinebreak (c : ascii) : bool :=
  let n := code c in
  ((10 <=? n) && (n <=? 13)) || ((28 <=? n) && (n <=? 30)) || (n =? 133).

Definition isdigit (c : ascii) : bool :=
  let n := code c in (48 <=? n) && (n <=? 57).

Definition digit_value (c : ascii) : Z := Z.of_nat (code c - 48).

(** [any(p(c) for c in s)] *)
Fixpoint any (p : ascii -> bool) (s : string) : bool :=
  match s with
  | EmptyString => false
  | String c r => p c || any p r
  end.

Definition is_empty (s : string) : bool :=
  match s with EmptyString => true | String _ _ => false end.

Fixpoint lstrip (s : string) : string :=
  match s with
  | EmptyString => EmptyString
  | String c r => if isspace c then lstrip r else s
  end.

Fixpoint rstrip (s : string) : string :=
  match s with
  | EmptyString => EmptyString
  | String c r =>
      let r' := rstrip r in
      if isspace c && is_empty r' then EmptyString else String c r'
  end.

(** [s.strip()] *)
Definition strip (s : string) : string := rstrip (lstrip s).

(** [s.splitlines()]: [cur] is the line being read.  CR LF counts as one
    boundary, and a final boundary opens no empty last line. *)
Fixpoint splitlines_from (cur : string) (s : string) : list string :=
  match s with
  | EmptyString => if is_empty cur then [] else [cur]
  | String c r =>
      if islinebreak c then
        match c, r with
        | "013"%char, String "010"%char r' => cur :: splitlines_from EmptyString r'
        | _, _ => cur :: splitlines_from EmptyString r
        end
      else splitlines_from (cur ++ String c EmptyString) r
  end.

Definition splitlines (s : string) : list string :=
  splitlines_from EmptyString s.

Fixpoint repeat_char (c : ascii) (n : nat) : string :=
  match n with
  | O => EmptyString
  | S n' => String c (repeat_char c n')
  end.

(** Plain left padding with [fill] up to [width] characters. *)
Definition rjust (width : nat) (fill : ascii) (s : string) : string :=
  repeat_char fill (width - String.length s) ++ s.

Definition is_sign (c : ascii) : bool :=
  Ascii.eqb c "+" || Ascii.eqb c "-".

(** [s.zfill(width)]: a string at least [width] long is returned as it is;
    otherwise zeros are added on the left, after a leading sign if the
    string has one. *)
Definition zfill (width : nat) (s : string) : string :=
  if width <=? String.length s then s
  else
    let fill := repeat_char "0" (width - String.length s) in
    match s with
    | String c r => if is_sign c then String c (fill ++ r) else fill ++ s
    | EmptyString => fill
    end.

(** [str(n)] for an [int]. *)
Definition str_of_int (z : Z) : string :=
  NilZero.string_of_int (Z.to_int z).

(** [sys.get_int_max_str_digits()], the default. *)
Definition int_max_str_digits : nat := 4300.

(** The digit part of an integer literal: decimal digits, where single
    underscores may stand between two digits.  [prev] tells whether the
    character before was a digit; [n] counts the digits read. *)
Fixpoint digits_from (prev : bool) (acc : Z) (n : nat) (s : string)
  : option (Z * nat) :=
  match s with
  | EmptyString => if prev then Some (acc, n) else None
  | String c r =>
      if isdigit c then digits_from true (10 * acc + digit_value c) (S n) r
      else if Ascii.eqb c "_" && prev then digits_from false acc n r
      else None
  end.

(** The whitespace [int] skips around a literal.  It is narrower than
    [str.isspace]: TAB, LF, VT, FF, CR and SPACE among the ASCII characters,
    and NEL and NBSP, which the conversion first turns into spaces; the
    separators U+001C..U+001F are not skipped. *)
Definition int_isspace (c : ascii) : bool :=
  let n := code c in
  ((9 <=? n) && (n <=? 13)) || (n =? 32) || (n =? 133) || (n =? 160).

(** Dropping the leading, and the trailing, characters that satisfy [p]. *)
Fixpoint lskip (p : ascii -> bool) (s : string) : string :=
  match s with
  | EmptyString => EmptyString
  | String c r => if p c then lskip p r else s
  end.

Fixpoint rskip (p : ascii -> bool) (s : string) : string :=
  match s with
  | EmptyString => EmptyString
  | String c r =>
      let r' := rskip p r in
      if p c && is_empty r' then EmptyString else String c r'
  end.

(** [all(p(c) for c in s)] *)
Definition all (p : ascii -> bool) (s : string) : bool :=
  negb (any (fun c => negb (p c)) s).

(** [int(s)] for a [str], base ten: surrounding whitespace is skipped, one
    sign is allowed, and anything else than an integer literal (or a
    literal of more than [int_max_str_digits] digits) is a [ValueError]. *)
Definition int (s : string) : result Z :=
  let t := rskip int_isspace (lskip int_isspace s) in
  let '(neg, body) :=
    match t with
    | String "-"%char r => (true, r)
    | String "+"%char r => (false, r)
    | _ => (false, t)
    end in
  match digits_from false 0%Z 0 body with
  | Some (v, n) =>
      if n <=? int_max_str_digits
      then Ok (if neg then (- v)%Z else v)
      else Raise (ValueError s)
  | None => Raise (ValueError s)
  end.


(** [s.encode("utf-8")] for code points below U+0100: one byte below
    U+0080, two bytes from there on. *)
Definition encode_char (c : ascii) : list byte :=
  let n := code c in
  if n <? 128 then [byte_of_ascii c]
  else [byte_of_ascii (ascii_of_nat (192 + n / 64));
        byte_of_ascii (ascii_of_nat (128 + n mod 64))].

Fixpoint encode_utf8 (s : string) : list byte :=
  match s with
  | EmptyString => []
  | String c r => encode_char c ++ encode_utf8 r
  end.

(** [sep.join(parts)] *)
Fixpoint join (sep : string) (parts : list string) : string :=
  match parts with
  | [] => EmptyString
  | [p] => p
  | p :: ps => p ++ sep ++ join sep ps
  end.

End PyStr.

(** One step of [PyStr.digits_from] on a literal digit. *)
Ltac read_digit :=
  cbn [PyStr.digits_from Pos.of_uint_acc Pos.of_uint];
  change (PyStr.isdigit _) with true; cbn iota;
  match goal with
  | |- context [PyStr.digit_value ?c] =>
      let k := eval vm_compute in (PyStr.digit_value c) in
      change (PyStr.digit_value c) with k
  end.


(** ** [datetime.date] and [strftime] *)

Module Datetime.

Local Open Scope Z_scope.

Definition is_leap (y : Z) : bool :=
  (y mod 4 =? 0) && (negb (y mod 100 =? 0) || (y mod 400 =? 0)).

Definition days_in_month (y m : Z) : Z :=
  match m with
  | 1 | 3 | 5 | 7 | 8 | 10 | 12 => 31
  | 4 | 6 | 9 | 11 => 30
  | 2 => if is_leap y then 29 else 28
  | _ => 0
  end.

(** The check of the [date] constructor: MINYEAR = 1, MAXYEAR = 9999. *)
Definition valid_date (y m d : Z) : bool :=
  (1 <=? y) && (y <=? 9999) && (1 <=? m) && (m <=? 12)
  && (1 <=? d) && (d <=? days_in_month y m).

Record date : Type := mkdate {
  year : Z;
  month : Z;
  day : Z;
  date_ok : valid_date year month day = true
}.

(** C's [%0wd]. *)
Definition zero_padded (width : nat) (n : Z) : string :=
  PyStr.rjust width "0" (PyStr.str_of_int n).

(** One conversion of a format string, as [date.strftime] gets it from
    the C library on Linux: [%Y] is the year in decimal without padding,
    so a year below 1000 has fewer than four digits; [%m] and [%d] are
    zero-padded to two digits.  The script uses [%Y], [%m] and [%d] only;
    other letters stay as written. *)
Definition directive (c : ascii) (d : date) : string :=
  if Ascii.eqb c "Y" then PyStr.str_of_int (year d)
  else if Ascii.eqb c "m" then zero_padded 2 (month d)
  else if Ascii.eqb c "d" then zero_padded 2 (day d)
  else if Ascii.eqb c "%" then "%"%string
  else String "%" (String c EmptyString).

(** [d.strftime(fmt)] *)
Fixpoint strftime (fmt : string) (d : date) : string :=
  match fmt with
  | EmptyString => EmptyString
  | String "%"%char (String c r) => directive c d ++ strftime r d
  | String c r => String c (strftime r d)
  end.

Definition digit_char (n : Z) : ascii :=
  ascii_of_nat (48 + Z.to_nat (n mod 10)).


Definition two_digits (m : Z) : string :=
  String (digit_char (m / 10)) (String (digit_char m) EmptyString).

(** [p] holds of every integer from 0 to [n]. *)
Fixpoint all_upto (p : Z -> bool) (n : nat) : bool :=
  match n with
  | O => p 0
  | S k => p (Z.of_nat n) && all_upto p k
  end.


End Datetime.

(** ** The request and response messages of the Analytics Data API *)

Module GA4.

Record DateRange : Type := {
  start_date : string;
  end_date : string
}.

Record Dimension : Type := { dimension_name : string }.

Record Metric : Type := { metric_name : string }.

(** [Filter.StringFilter.MatchType] *)
Inductive MatchType : Type :=
| MATCH_TYPE_UNSPECIFIED
| EXACT
| BEGINS_WITH
| ENDS_WITH
| CONTAINS
| FULL_REGEXP
| PARTIAL_REGEXP.

Record StringFilter : Type := {
  match_type : MatchType;
  value : string
}.

Record Filter : Type := {
  field_name : string;
  string_filter : StringFilter
}.

(** The script builds the [filter] alternative of the expression only. *)
Record FilterExpression : Type := { filter : Filter }.

Record RunReportRequest : Type := {
  property : string;
  date_ranges : list DateRange;
  dimensions : list Dimension;
  metrics : list Metric;
  dimension_filter : FilterExpression
}.

Record DimensionValue : Type := { dimension_value : string }.

Record MetricValue : Type := { metric_value : string }.

Record Row : Type := {
  dimension_values : list DimensionValue;
  metric_values : list MetricValue
}.

Record RunReportResponse : Type := { rows : list Row }.

End GA4.

(** ** The data frame and its CSV writer *)

Module Pandas.

Inductive cell : Type :=
| CStr (s : string)
| CInt (z : Z).

Record DataFrame : Type := {
  columns : list string;
  values : list (list cell)
}.

(** [len(df)] *)
Definition len (df : DataFrame) : nat := List.length (values df).

Definition cell_text (c : cell) : string :=
  match c with
  | CStr s => s
  | CInt z => PyStr.str_of_int z
  end.

(** [os.name] and [os.linesep] *)
Inductive os_name : Type := posix | nt.

Definition delimiter : ascii := ",".
Definition quotechar : ascii := ascii_of_nat 34.
Definition CR : ascii := ascii_of_nat 13.
Definition LF : ascii := ascii_of_nat 10.

Definition linesep (os : os_name) : string :=
  match os with
  | posix => String LF EmptyString
  | nt => String CR (String LF EmptyString)
  end.

(** The characters that make the writer quote a field under QUOTE_MINIMAL:
    the delimiter, the quote character and the characters of the line
    terminator.  So a carriage return alone is special under CR LF and is
    not under LF. *)
Definition special (lineterminator : string) (c : ascii) : bool :=
  Ascii.eqb c delimiter || Ascii.eqb c quotechar
  || PyStr.any (Ascii.eqb c) lineterminator.

(** [doublequote=True]: a quote character inside a field is written twice. *)
Fixpoint double_quotes (s : string) : string :=
  match s with
  | EmptyString => EmptyString
  | String c r =>
      if Ascii.eqb c quotechar
      then String c (String c (double_quotes r))
      else String c (double_quotes r)
  end.

Definition quoted (s : string) : string :=
  String quotechar (double_quotes s ++ String quotechar EmptyString).

Definition write_field (lineterminator : string) (s : string) : string :=
  if PyStr.any (special lineterminator) s then quoted s else s.

(** [csv.writer.writerow]: a record that is one empty field is written as
    a pair of quotes. *)
Definition writerow (lineterminator : string) (fields : list string) : string :=
  match fields with
  | [EmptyString] => quoted EmptyString ++ lineterminator
  | _ =>
      PyStr.join (String delimiter EmptyString)
        (map (write_field lineterminator) fields) ++ lineterminator
  end.

Fixpoint concat_str (l : list string) : string :=
  match l with
  | [] => EmptyString
  | s :: r => s ++ concat_str r
  end.

(** [df.to_csv(index=False)] with every other argument at its default:
    the header record, then one record per row; [lineterminator] is
    [os.linesep]. *)
Definition to_csv (lineterminator : string) (df : DataFrame) : string :=
  writerow lineterminator (columns df)
  ++ concat_str
       (map (fun r => writerow lineterminator (map cell_text r)) (values df)).

End Pandas.

(** ** The script *)

Module App.

Import GA4 Pandas.

(** *** Property directory *)

(** [view_id_name_mapping]: the entries in the order of the dict literal,
    which is the order of the options of the property selector. *)
Definition view_id_name_mapping : list (string * string) :=
  [ ("424738282", "DNA English");
    ("424752920", "DNA Hindi");
    ("424754635", "ICOM Hindi");
    ("424788272", "ICOM English");
    ("424733916", "Zee Bengali");
    ("424734706", "Zee Odisha");
    ("424737620", "Zee PHH");
    ("424740324", "Zee Rajasthan");
    ("424747120", "Zee Salaam");
    ("424748591", "Zee Gujarati");
    ("424751136", "Zee Hindustan");
    ("424751758", "Zee English");
    ("424752916", "Zee Telugu");
    ("424755684", "Zee UP UK");
    ("424756835", "Zee Hindi");
    ("424807672", "Delhi NCR Harayana");
    ("424807363", "Zee Bihar Jharkhand");
    ("424803703", "Zee MP CG");
    ("424803190", "Zee Tamil");
    ("424802051", "Zee Malayalam");
    ("424797141", "Zee Marathi");
    ("424784463", "Zee Kannada");
    ("449141964", "WION");
    ("424815185", "Zee Biz English");
    ("424771953", "Zee Biz Hindi");
    ("425235134", "HealthSite English");
    ("425228038", "HealthSite Hindi");
    ("379536469", "Screenbox");
    ("425234014", "Bollywood Life English");
    ("425220388", "Bollywood Life Hindi");
    ("425245314", "CricketCountry English");
    ("425237720", "CricketCountry Hindi");
    ("425228771", "Techlusive English");
    ("425219576", "Techlusive Hindi");
    ("374981587", "MyLord");
    ("432213368", "Petuz");
    ("429575403", "Travel by India") ].

(** [d[k]] on a dict written as its list of items. *)
Fixpoint dict_getitem (d : list (string * string)) (k : string) : result string :=
  match d with
  | [] => Raise (KeyError k)
  | (k', v) :: r => if String.eqb k k' then Ok v else dict_getitem r k
  end.

(** *** Form values *)

(** What the sidebar widgets hand to the script on one run: the uploaded
    file ([None] when nothing was uploaded), the two dates, the selected
    property ids in selection order, the regex text, and whether the fetch
    button was pressed. *)
Record inputs : Type := {
  cred_file : option (list byte);
  start_date : Datetime.date;
  end_date : Datetime.date;
  selected_sites : list string;
  regex_input : string;
  fetch_btn : bool
}.

(** *** Records of the report *)

(** The dict appended per response row; its keys in insertion order are
    Site, Year_Month, Total_Users, Pageviews, Regex. *)
Record ReportRow : Type := {
  Site : string;
  Year_Month : string;
  Total_Users : Z;
  Pageviews : Z;
  Regex : string
}.

(** *** What a run shows and sends *)

(** The three texts of [st.error], after the cross mark:
    "Upload GA4 Service Account JSON", "Select at least one site" and
    "Enter at least one regex". *)
Inductive error_message : Type :=
| Upload_GA4_Service_Account_JSON
| Select_at_least_one_site
| Enter_at_least_one_regex.

Inductive event : Type :=
| st_error (m : error_message)
| spinner_enter
| spinner_exit
| client_created (credentials : list byte)
| run_report_sent (request : RunReportRequest)
| st_success (n_rows : nat)            (* "Data fetched: n rows" *)
| st_dataframe (df : DataFrame)
| st_download_button (data : list byte) (file_name mime : string)
| st_warning_no_data.                  (* "No data returned" *)

(** A computation of the script: it extends the log of events and either
    returns a value or dies of an exception. *)
Definition M (A : Type) : Type := list event -> result A * list event.

Definition ret {A : Type} (a : A) : M A := fun log => (Ok a, log).

Definition bind {A B : Type} (m : M A) (k : A -> M B) : M B :=
  fun log =>
    match m log with
    | (Ok a, log') => k a log'
    | (Raise e, log') => (Raise e, log')
    end.

Definition emit (ev : event) : M unit := fun log => (Ok tt, log ++ [ev]).

Definition lift {A : Type} (r : result A) : M A := fun log => (r, log).

Notation "x <- m ;; k" := (bind m (fun x => k))
  (at level 61, m at next level, right associativity).
Notation "m ;; k" := (bind m (fun _ => k))
  (at level 61, right associativity).

(** [with st.spinner(...)]: the spinner goes away however the body ends. *)
Definition with_spinner {A : Type} (body : M A) : M A :=
  fun log =>
    let '(r, log') := body (log ++ [spinner_enter]) in
    (r, log' ++ [spinner_exit]).

(** *** Report fetcher *)

(** The request of [fetch_ga4_data], lines 88 to 107. *)
Definition build_request (property_id regex : string)
    (start_date end_date : Datetime.date) : RunReportRequest :=
  {| property := "properties/" ++ property_id;
     date_ranges :=
       [ {| GA4.start_date := Datetime.strftime "%Y-%m-%d" start_date;
            GA4.end_date := Datetime.strftime "%Y-%m-%d" end_date |} ];
     dimensions := [ {| dimension_name := "year" |};
                     {| dimension_name := "month" |} ];
     metrics := [ {| metric_name := "totalUsers" |};
                  {| metric_name := "screenPageViews" |} ];
     dimension_filter :=
       {| filter :=
            {| field_name := "pagePath";
               string_filter := {| match_type := FULL_REGEXP;
                                   value := regex |} |} |} |}.

(** The dict built for one response row, lines 113 to 119; the entries are
    evaluated in the order they are written. *)
Definition flatten_row (site_name regex : string) (row : Row) : result ReportRow :=
  let? d0 := getitem (dimension_values row) 0 in
  let? d1 := getitem (dimension_values row) 1 in
  let? m0 := getitem (metric_values row) 0 in
  let? total_users := PyStr.int (metric_value m0) in
  let? m1 := getitem (metric_values row) 1 in
  let? pageviews := PyStr.int (metric_value m1) in
  Ok {| Site := site_name;
        Year_Month := dimension_value d0 ++ "-" ++ PyStr.zfill 2 (dimension_value d1);
        Total_Users := total_users;
        Pageviews := pageviews;
        Regex := regex |}.

(** [for row in response.rows: rows.append({...})] with [rows] as the
    accumulator. *)
Fixpoint flatten_rows (site_name regex : string) (response_rows : list Row)
    (rows : list ReportRow) : result (list ReportRow) :=
  match response_rows with
  | [] => Ok rows
  | row :: rest =>
      let? r := flatten_row site_name regex row in
      flatten_rows site_name regex rest (rows ++ [r])
  end.

Section Run.

(** The external collaborators of a run: the client handle, what building
    it from the uploaded bytes gives ([json.loads], [from_service_account_info]
    and the client constructor together), what the service answers to a
    request, the platform the script runs on, and the exception the table
    widget raises on a frame it cannot display ([None] when it displays
    the frame; it serialises the frame first, which fails, for one, on an
    integer that does not fit in 64 bits). *)
Variable Client : Type.
Variable new_client : list byte -> result Client.
Variable run_report : Client -> RunReportRequest -> result RunReportResponse.
Variable os : os_name.
Variable st_dataframe_error : DataFrame -> option exn.

(** [client.run_report(request)] *)
Definition client_run_report (client : Client) (request : RunReportRequest)
  : M RunReportResponse :=
  emit (run_report_sent request) ;; lift (run_report client request).

Definition fetch_ga4_data (client : Client) (property_id site_name regex : string)
    (start_date end_date : Datetime.date) : M (list ReportRow) :=
  let request := build_request property_id regex start_date end_date in
  response <- client_run_report client request ;;
  lift (flatten_rows site_name regex (rows response) []).

(** *** Orchestrator *)

(** [[r.strip() for r in regex_input.splitlines() if r.strip()]] *)
Definition regex_list_of (regex_input : string) : list string :=
  map PyStr.strip
    (List.filter (fun r => negb (PyStr.is_empty (PyStr.strip r)))
       (PyStr.splitlines regex_input)).

(** The inner loop, lines 149 to 159: [final_data.extend(fetch_ga4_data(...))]
    for each regex. *)
Fixpoint for_regex (client : Client) (property_id site_name : string)
    (start_date end_date : Datetime.date) (regex_list : list string)
    (final_data : list ReportRow) : M (list ReportRow) :=
  match regex_list with
  | [] => ret final_data
  | regex :: rest =>
      fetched <- fetch_ga4_data client property_id site_name regex
                   start_date end_date ;;
      for_regex client property_id site_name start_date end_date rest
        (final_data ++ fetched)
  end.

(** The outer loop, lines 147 to 159. *)
Fixpoint for_property (client : Client) (start_date end_date : Datetime.date)
    (regex_list : list string) (sites : list string)
    (final_data : list ReportRow) : M (list ReportRow) :=
  match sites with
  | [] => ret final_data
  | property_id :: rest =>
      site_name <- lift (dict_getitem view_id_name_mapping property_id) ;;
      final_data' <- for_regex client property_id site_name start_date end_date
                       regex_list final_data ;;
      for_property client start_date end_date regex_list rest final_data'
  end.

(** [pd.DataFrame(final_data)]: one column per key, one row per dict. *)
Definition DataFrame_of (final_data : list ReportRow) : DataFrame :=
  {| columns := ["Site"; "Year_Month"; "Total_Users"; "Pageviews"; "Regex"];
     values :=
       map (fun r => [CStr (Site r); CStr (Year_Month r); CInt (Total_Users r);
                      CInt (Pageviews r); CStr (Regex r)])
         final_data |}.

(** [st.dataframe(df)]: the frame is displayed, or the widget raises. *)
Definition show_dataframe (df : DataFrame) : M unit :=
  match st_dataframe_error df with
  | None => emit (st_dataframe df)
  | Some e => lift (Raise e)
  end.

(** Lines 161 to 175. *)
Definition show (final_data : list ReportRow) : M unit :=
  match final_data with
  | _ :: _ =>
      let df := DataFrame_of final_data in
      emit (st_success (len df)) ;;
      show_dataframe df ;;
      let csv := PyStr.encode_utf8 (to_csv (linesep os) df) in
      emit (st_download_button csv "ga4_category_report.csv" "text/csv")
  | [] => emit st_warning_no_data
  end.

(** Lines 132 to 175: the body of the final [else]. *)
Definition fetch_and_show (credentials : list byte) (inp : inputs) : M unit :=
  with_spinner (
    client <- lift (new_client credentials) ;;
    emit (client_created credentials) ;;
    let regex_list := regex_list_of (regex_input inp) in
    final_data <- for_property client (start_date inp) (end_date inp)
                    regex_list (selected_sites inp) [] ;;
    show final_data).

(** Lines 124 to 175. *)
Definition main (inp : inputs) : M unit :=
  if fetch_btn inp then
    match cred_file inp with
    | None => emit (st_error Upload_GA4_Service_Account_JSON)
    | Some credentials =>
        match selected_sites inp with
        | [] => emit (st_error Select_at_least_one_site)
        | _ :: _ =>
            if PyStr.is_empty (PyStr.strip (regex_input inp))
            then emit (st_error Enter_at_least_one_regex)
            else fetch_and_show credentials inp
        end
    end
  else ret tt.


(** *** Notions derived from the run *)

(** What one call of the fetcher returns: its rows, or the exception it
    dies of. *)
Definition fetched (client : Client) (property_id site_name regex : string)
    (start_date end_date : Datetime.date) : result (list ReportRow) :=
  fst (fetch_ga4_data client property_id site_name regex start_date end_date []).

(** The rows one property contributes: the directory lookup, then the
    calls for every regex in order. *)
Definition site_rows (client : Client) (start_date end_date : Datetime.date)
    (regex_list : list string) (property_id : string) : result (list ReportRow) :=
  let? site_name := dict_getitem view_id_name_mapping property_id in
  let? fetched_lists :=
    traverse (fun regex => fetched client property_id site_name regex
                             start_date end_date) regex_list in
  Ok (concat fetched_lists).

(** The call made for one (property, regex) pair of the matrix. *)
Definition call (client : Client) (start_date end_date : Datetime.date)
    (pair : string * string) : result (list ReportRow) :=
  let? site_name := dict_getitem view_id_name_mapping (fst pair) in
  fetched client (fst pair) site_name (snd pair) start_date end_date.

Definition request_of (start_date end_date : Datetime.date)
    (pair : string * string) : RunReportRequest :=
  build_request (fst pair) (snd pair) start_date end_date.

Definition in_directory (property_id : string) : bool :=
  is_ok (dict_getitem view_id_name_mapping property_id).

(** What [show] adds to the log, and how it ends. *)
Definition shown (final_data : list ReportRow) : list event :=
  snd (show final_data []).

Definition show_result (final_data : list ReportRow) : result unit :=
  fst (show final_data []).

(** The matrix of a run: the selected properties times the regexes of
    the text, in traversal order. *)
Definition matrix (inp : inputs) : list (string * string) :=
  list_prod (selected_sites inp) (regex_list_of (regex_input inp)).

End Run.

(** The run passes the validation gate with the uploaded [credentials]. *)
Definition started (inp : inputs) (credentials : list byte) : Prop :=
  fetch_btn inp = true
  /\ cred_file inp = Some credentials
  /\ selected_sites inp <> []
  /\ PyStr.strip (regex_input inp) <> EmptyString.



(** The events that reach the analytics service or prepare to. *)
Definition is_network_event (ev : event) : bool :=
  match ev with
  | client_created _ | run_report_sent _ => true
  | _ => false
  end.

(** The log entries of the requests for a list of pairs. *)
Definition sent (start_date end_date : Datetime.date) (pairs : list (string * string))
  : list event :=
  map (fun pair => run_report_sent (request_of start_date end_date pair)) pairs.

(** *** Property selector *)

(** [options=list(view_id_name_mapping.keys())] *)
Definition options : list string := map fst view_id_name_mapping.

(** [format_func=lambda x: f"{view_id_name_mapping[x]} ({x})"] *)
Definition format_func (x : string) : result string :=
  let? name := dict_getitem view_id_name_mapping x in
  Ok (name ++ " (" ++ x ++ ")")%string.

(** The messages that tell the user how the run ended. *)
Definition is_condition_event (ev : event) : bool :=
  match ev with
  | st_error _ | st_success _ | st_warning_no_data => true
  | _ => false
  end.

Definition is_spinner_event (ev : event) : bool :=
  match ev with
  | spinner_enter | spinner_exit => true
  | _ => false
  end.

End App.

(** ** Test doubles and sample values *)

Module Demo.

Import GA4 Pandas App.

Definition response_row (year month total_users pageviews : string) : Row :=
  {| dimension_values := [ {| dimension_value := year |};
                           {| dimension_value := month |} ];
     metric_values := [ {| metric_value := total_users |};
                        {| metric_value := pageviews |} ] |}.

(** The response row of the worked example of the specification. *)
Definition august_row : Row := response_row "2024" "8" "150" "300".

(** A month that is a lone minus sign. *)
Definition sign_month_row : Row := response_row "2024" "-" "150" "300".

(** A total that is no number. *)
Definition malformed_row : Row := response_row "2024" "8" "n/a" "300".

(** A row that lacks the second dimension. *)
Definition narrow_row : Row :=
  {| dimension_values := [ {| dimension_value := "2024" |} ];
     metric_values := [ {| metric_value := "150" |};
                        {| metric_value := "300" |} ] |}.

(** Clients are built from any upload. *)
Definition new_client (_ : list byte) : result unit := Ok tt.

(** A service that answers every request with the row of the example. *)
Definition run_report (_ : unit) (_ : RunReportRequest) : result RunReportResponse :=
  Ok {| rows := [august_row] |}.

(** The same service, except that it refuses a property nobody selects. *)
Definition run_report_elsewhere (_ : unit) (request : RunReportRequest)
  : result RunReportResponse :=
  if String.eqb (property request) "properties/0"
  then Raise (ExternalError "PERMISSION_DENIED")
  else Ok {| rows := [august_row] |}.

(** A service with nothing to report. *)
Definition run_report_empty (_ : unit) (_ : RunReportRequest)
  : result RunReportResponse :=
  Ok {| rows := [] |}.

(** A service that sends a total that is no number. *)
Definition run_report_malformed (_ : unit) (_ : RunReportRequest)
  : result RunReportResponse :=
  Ok {| rows := [august_row; malformed_row] |}.

Definition august_1 : Datetime.date := Datetime.mkdate 2024 8 1 eq_refl.
Definition august_31 : Datetime.date := Datetime.mkdate 2024 8 31 eq_refl.

Definition mp_regex : string := ".*(/mp/).*".
Definition politics_regex : string := ".*(/politics/).*".

(** Two regexes, one per line. *)
Definition two_lines : string :=
  mp_regex ++ String LF politics_regex.

(** A filled form: DNA English and DNA Hindi, two regexes, August 2024. *)
Definition form : inputs :=
  {| cred_file := Some [];
     start_date := august_1;
     end_date := august_31;
     selected_sites := ["424738282"; "424752920"];
     regex_input := two_lines;
     fetch_btn := true |}.

(** The form of the worked example: DNA English, one regex, August 2024. *)
Definition example_form : inputs :=
  {| cred_file := Some [];
     start_date := august_1;
     end_date := august_31;
     selected_sites := ["424738282"];
     regex_input := mp_regex;
     fetch_btn := true |}.

(** The form with nothing filled in and the button pressed. *)
Definition blank_form : inputs :=
  {| cred_file := None;
     start_date := august_1;
     end_date := august_31;
     selected_sites := [];
     regex_input := EmptyString;
     fetch_btn := true |}.

(** The record of the worked example of the specification. *)
Definition august_record (site_name regex : string) : ReportRow :=
  {| Site := site_name;
     Year_Month := "2024-08";
     Total_Users := 150;
     Pageviews := 300;
     Regex := regex |}.

(** Clients cannot be built from the upload. *)
Definition new_client_refused (_ : list byte) : result unit :=
  Raise (ExternalError "invalid service account info").

(** The form of the worked example with an id after it that the
    directory does not hold, and a known one after that. *)
Definition unknown_site_form : inputs :=
  {| cred_file := Some [];
     start_date := august_1;
     end_date := august_31;
     selected_sites := ["424738282"; "000000000"; "424752920"];
     regex_input := mp_regex;
     fetch_btn := true |}.

(** Three lines as typed: padded with blanks, one of them empty. *)
Definition typed_lines : list string :=
  ["  .*(/mp/).* "; EmptyString; ".*(/politics/).*"].

(** A record whose regex holds a comma. *)
Definition comma_record : ReportRow :=
  {| Site := "DNA English";
     Year_Month := "2024-08";
     Total_Users := 150;
     Pageviews := 300;
     Regex := ".*/a{1,2}/.*" |}.

(** A record whose regex holds a carriage return. *)
Definition carriage_return_record : ReportRow :=
  {| Site := "DNA English";
     Year_Month := "2024-08";
     Total_Users := 150;
     Pageviews := 300;
     Regex := String "a" (String CR "b") |}.

(** A table widget that raises on a frame holding an integer of 2^64 or
    more, and displays every other frame. *)
Definition beyond_64_bits (c : cell) : bool :=
  match c with
  | CInt z => (2 ^ 64 <=? z)%Z
  | CStr _ => false
  end.

Definition st_dataframe_error (df : DataFrame) : option exn :=
  if existsb (existsb beyond_64_bits) (values df)
  then Some (ExternalError "OverflowError")
  else None.

(** A table widget that displays every frame. *)
Definition st_dataframe_displays (_ : DataFrame) : option exn := None.

(** A service that reports a total of 2^64. *)
Definition run_report_beyond_64_bits (_ : unit) (_ : RunReportRequest)
  : result RunReportResponse :=
  Ok {| rows := [response_row "2024" "8" "18446744073709551616" "300"] |}.


End Demo.

(** ** Statements of the specification that the code refines *)

Module AsSpecified.

Import GA4 Pandas App.


(** The digit part of an integer literal: decimal digits, where one
    underscore may stand between two digits. *)
Inductive digit_groups : string -> Prop :=
| last_digit c :
    PyStr.isdigit c = true -> digit_groups (String c EmptyString)
| digit_then_digit c s :
    PyStr.isdigit c = true -> digit_groups s -> digit_groups (String c s)
| digit_then_underscore c s :
    PyStr.isdigit c = true -> digit_groups s ->
    digit_groups (String c (String "_" s)).

(** The number that the digits of a text write in base ten, read after
    [acc]; characters that are no digits are passed over. *)
Fixpoint decimal_value_from (acc : Z) (s : string) : Z :=
  match s with
  | EmptyString => acc
  | String c r =>
      decimal_value_from
        (if PyStr.isdigit c then (10 * acc + PyStr.digit_value c)%Z else acc) r
  end.

Definition decimal_value (s : string) : Z := decimal_value_from 0%Z s.

Fixpoint count_digits (s : string) : nat :=
  match s with
  | EmptyString => 0
  | String c r => (if PyStr.isdigit c then 1 else 0) + count_digits r
  end.

(** [text] is an integer literal of value [z]: whitespace, at most one
    sign, digit groups of no more digits than the limit, whitespace. *)
Definition integer_literal (text : string) (z : Z) : Prop :=
  exists lead sign body trail,
    text = (lead ++ sign ++ body ++ trail)%string
    /\ PyStr.all PyStr.int_isspace lead = true
    /\ PyStr.all PyStr.int_isspace trail = true
    /\ digit_groups body
    /\ count_digits body <= PyStr.int_max_str_digits
    /\ ((sign = EmptyString \/ sign = "+"%string) /\ z = decimal_value body
        \/ sign = "-"%string /\ z = (- decimal_value body)%Z).

(** The month column as worded: the month value left-padded with zeros to
    width two. *)
Definition year_month_left_padded (row : Row) (r : ReportRow) : Prop :=
  forall d0 d1 rest,
    dimension_values row = d0 :: d1 :: rest ->
    Year_Month r =
    (dimension_value d0 ++ "-" ++ PyStr.rjust 2 "0" (dimension_value d1))%string.

(** What [zfill(2)] makes of a month value: left padding, where a lone
    sign stays in front of the zero. *)
Definition month_field (m : string) : string :=
  match m with
  | String c EmptyString =>
      if PyStr.is_sign c then String c "0" else PyStr.rjust 2 "0" m
  | _ => PyStr.rjust 2 "0" m
  end.

(** Flattening as worded: two dimension values and two metric values are
    all a row needs. *)
Definition flattens_when_wide (site_name regex : string) (row : Row) : Prop :=
  2 <= length (dimension_values row) ->
  2 <= length (metric_values row) ->
  is_ok (flatten_row site_name regex row) = true.

(** A text is blank when it holds whitespace only. *)
Definition blank (s : string) : bool :=
  negb (PyStr.any (fun c => negb (PyStr.isspace c)) s).

(** The gate as worded: missing credentials, then missing property
    selection, then missing or blank regex text; the first that fails. *)
Definition first_failed_gate (inp : inputs) : option error_message :=
  match cred_file inp with
  | None => Some Upload_GA4_Service_Account_JSON
  | Some _ =>
      if length (selected_sites inp) =? 0 then Some Select_at_least_one_site
      else if blank (regex_input inp) then Some Enter_at_least_one_regex
      else None
  end.

(** The header line of the export. *)
Definition header : string := "Site,Year_Month,Total_Users,Pageviews,Regex".

(** The five fields of a record as text, in column order. *)
Definition fields_of (r : ReportRow) : list string :=
  [ Site r; Year_Month r; PyStr.str_of_int (Total_Users r);
    PyStr.str_of_int (Pageviews r); Regex r ].

(** A record written with its field values verbatim. *)
Definition verbatim_line (r : ReportRow) : string :=
  PyStr.join "," (fields_of r).

Definition verbatim_text (os : os_name) (data : list ReportRow) : string :=
  (header ++ linesep os
   ++ concat_str (map (fun r => verbatim_line r ++ linesep os) data))%string.

(** The characters of the line terminator of the platform: LF on POSIX,
    CR and LF on Windows. *)
Definition line_end_char (os : os_name) (c : ascii) : bool :=
  match os with
  | posix => Ascii.eqb c LF
  | nt => Ascii.eqb c CR || Ascii.eqb c LF
  end.

(** A text with no comma, double quote or line-terminator character in
    it. *)
Definition plain (os : os_name) (s : string) : bool :=
  negb (PyStr.any
          (fun c => Ascii.eqb c delimiter || Ascii.eqb c quotechar
                    || line_end_char os c) s).

(** Minimal quoting: a plain field is written verbatim, any other between
    double quotes with its own double quotes doubled. *)
Definition csv_field (os : os_name) (s : string) : string :=
  if plain os s then s else quoted s.

Definition csv_line (os : os_name) (r : ReportRow) : string :=
  PyStr.join "," (map (csv_field os) (fields_of r)).

Definition csv_text (os : os_name) (data : list ReportRow) : string :=
  (header ++ linesep os
   ++ concat_str (map (fun r => csv_line os r ++ linesep os) data))%string.

(** The download of a text under the name and type of the export. *)
Definition download (text : string) : event :=
  st_download_button (PyStr.encode_utf8 text) "ga4_category_report.csv" "text/csv".

(** The export as worded: the file offered holds the header and the
    records with their field values verbatim. *)
Definition exported_verbatim (os : os_name)
    (st_dataframe_error : DataFrame -> option exn) (data : list ReportRow) : Prop :=
  In (download (verbatim_text os data)) (App.shown os st_dataframe_error data).

End AsSpecified.

(** ** What follows a field in the text of the export *)

Module Reader.

Import Pandas.

(** The characters that end a field: the delimiter and the character the
    line terminator of the platform starts with. *)
Definition field_end (os : os_name) (c : ascii) : bool :=
  Ascii.eqb c delimiter
  || match linesep os with
     | String c0 _ => Ascii.eqb c c0
     | EmptyString => false
     end.

(** A text that is empty or starts where a field ends. *)
Definition at_field_end (os : os_name) (t : string) : Prop :=
  match t with
  | EmptyString => True
  | String c _ => field_end os c = true
  end.

(** A text that is empty or starts with something else than a quote. *)
Definition after_quote (t : string) : Prop :=
  match t with
  | EmptyString => True
  | String c _ => Ascii.eqb c quotechar = false
  end.

End Reader.

(** * Properties *)

(** ** Strings and integers *)

Module PyStrFacts.

Import PyStr.

Example strip_inner_space : strip "  a b  " = "a b".
Proof. reflexivity. Qed.

Example splitlines_mixed :
  splitlines (String "a" (String "013" (String "010" (String "b"
                (String "010" (String "010" "c ")))))) = ["a"; "b"; EmptyString; "c "].
Proof. reflexivity. Qed.

Example zfill_one_digit : zfill 2 "8" = "08".
Proof. reflexivity. Qed.

Example zfill_two_digits : zfill 2 "11" = "11".
Proof. reflexivity. Qed.

Example zfill_lone_minus : zfill 2 "-" = "-0".
Proof. reflexivity. Qed.

Example int_underscore : int " 1_000 " = Ok 1000%Z.
Proof. reflexivity. Qed.

Example int_negative : int "-12" = Ok (-12)%Z.
Proof. reflexivity. Qed.

Example int_decimal_point : int "1.5" = Raise (ValueError "1.5").
Proof. reflexivity. Qed.

Example int_empty : int EmptyString = Raise (ValueError EmptyString).
Proof. reflexivity. Qed.

Example int_double_underscore : int "1__0" = Raise (ValueError "1__0").
Proof. reflexivity. Qed.

Example str_negative : str_of_int (-150) = "-150".
Proof. reflexivity. Qed.

Example encode_e_acute :
  encode_utf8 (String (ascii_of_nat 233) "a") = ["195"%byte; "169"%byte; "a"%byte].
Proof. reflexivity. Qed.

Lemma append_assoc s t u : ((s ++ t) ++ u = s ++ (t ++ u))%string.
Proof.
  induction s as [|c s IH]; simpl; [reflexivity|]. now rewrite IH.
Qed.

Lemma any_app p s t : any p (s ++ t)%string = any p s || any p t.
Proof.
  induction s as [|c s IH]; simpl; [reflexivity|].
  now rewrite IH, orb_assoc.
Qed.

Lemma any_lstrip p s :
  (forall c, p c = true -> isspace c = false) ->
  any p (lstrip s) = any p s.
Proof.
  intros Hp. induction s as [|c s IH]; simpl; [reflexivity|].
  destruct (isspace c) eqn:Hc; simpl; [|reflexivity].
  rewrite IH. destruct (p c) eqn:Hpc; [|reflexivity].
  apply Hp in Hpc. congruence.
Qed.

Lemma any_rstrip p s :
  (forall c, p c = true -> isspace c = false) ->
  any p (rstrip s) = any p s.
Proof.
  intros Hp. induction s as [|c s IH]; simpl; [reflexivity|].
  destruct (isspace c) eqn:Hc; simpl.
  - destruct (rstrip s) eqn:Hr; simpl in *.
    + rewrite <- IH. destruct (p c) eqn:Hpc; [|reflexivity].
      apply Hp in Hpc. congruence.
    + now rewrite IH.
  - now rewrite IH.
Qed.

Lemma any_strip p s :
  (forall c, p c = true -> isspace c = false) ->
  any p (strip s) = any p s.
Proof.
  intros Hp. unfold strip. now rewrite any_rstrip, any_lstrip.
Qed.

(** Stripping only removes characters. *)
Lemma any_lstrip_le p s : any p (lstrip s) = true -> any p s = true.
Proof.
  induction s as [|c s IH]; simpl; [easy|].
  destruct (isspace c); simpl; [|easy].
  intros H. rewrite (IH H). apply orb_true_r.
Qed.

Lemma any_rstrip_le p s : any p (rstrip s) = true -> any p s = true.
Proof.
  induction s as [|c s IH]; simpl; [easy|].
  destruct (isspace c && is_empty (rstrip s)); simpl; [easy|].
  intros H. apply orb_true_iff in H. destruct H as [H|H].
  - now rewrite H.
  - rewrite (IH H). apply orb_true_r.
Qed.

Lemma any_strip_le p s : any p (strip s) = true -> any p s = true.
Proof.
  unfold strip. intros H. now apply any_lstrip_le, any_rstrip_le.
Qed.







(** The three ways [int] opens a stripped text: a minus sign, a plus sign,
    or the literal at once. *)
Lemma int_cases s :
  let t := rskip int_isspace (lskip int_isspace s) in
  exists (neg : bool) (body : string),
    (t = String "-" body /\ neg = true
     \/ t = String "+" body /\ neg = false
     \/ t = body /\ neg = false
        /\ (forall r, t <> String "-" r) /\ (forall r, t <> String "+" r))
    /\ int s =
       match digits_from false 0%Z 0 body with
       | Some (v, n) =>
           if n <=? int_max_str_digits
           then Ok (if neg then (- v)%Z else v)
           else Raise (ValueError s)
       | None => Raise (ValueError s)
       end.
Proof.
  intros t. unfold int. fold t.
  destruct t as [|c r] eqn:Ht.
  { exists false, EmptyString. split; [|reflexivity].
    right; right. repeat split; intros r; discriminate. }
  destruct (Ascii.eqb c "-") eqn:E1.
  { apply Ascii.eqb_eq in E1. subst c. exists true, r.
    split; [now left | reflexivity]. }
  destruct (Ascii.eqb c "+") eqn:E2.
  { apply Ascii.eqb_eq in E2. subst c. exists false, r.
    split; [right; now left | reflexivity]. }
  exists false, (String c r). split.
  - right; right. repeat split; intros r' Hr'; injection Hr' as -> _;
      discriminate.
  - destruct c as [[] [] [] [] [] [] [] []]; try reflexivity; discriminate.
Qed.




(** *** [int] accepts the integer literals, with their values *)

Lemma all_cons p c s : all p (String c s) = p c && all p s.
Proof.
  unfold all. cbn [any]. now rewrite negb_orb, negb_involutive.
Qed.

Lemma lskip_split p s :
  exists lead, s = (lead ++ lskip p s)%string /\ all p lead = true.
Proof.
  induction s as [|c s (lead & Hs & Hlead)]; [now exists EmptyString|].
  cbn [lskip]. destruct (p c) eqn:Hc.
  - exists (String c lead). cbn [append]. rewrite <- Hs, all_cons, Hc, Hlead.
    now split.
  - now exists EmptyString.
Qed.

Lemma rskip_split p s :
  exists trail, s = (rskip p s ++ trail)%string /\ all p trail = true.
Proof.
  induction s as [|c s (trail & Hs & Htrail)]; [now exists EmptyString|].
  cbn [rskip]. destruct (p c && is_empty (rskip p s)) eqn:Hc.
  - apply andb_true_iff in Hc. destruct Hc as [Hc Hempty].
    destruct (rskip p s); [|discriminate]. cbn [append] in Hs. subst s.
    exists (String c trail). rewrite all_cons, Hc, Htrail. now split.
  - exists trail. cbn [append]. now rewrite <- Hs.
Qed.

Lemma lskip_lead p lead rest :
  all p lead = true -> lskip p (lead ++ rest) = lskip p rest.
Proof.
  induction lead as [|c lead IH]; [reflexivity|].
  rewrite all_cons. intros H. apply andb_true_iff in H. destruct H as [Hc H].
  cbn [append lskip]. rewrite Hc. now apply IH.
Qed.

Lemma rskip_all p trail : all p trail = true -> rskip p trail = EmptyString.
Proof.
  induction trail as [|c trail IH]; [reflexivity|].
  rewrite all_cons. intros H. apply andb_true_iff in H. destruct H as [Hc H].
  cbn [rskip]. now rewrite (IH H), Hc.
Qed.

Lemma rskip_trail p t trail :
  any p t = false -> all p trail = true -> rskip p (t ++ trail) = t.
Proof.
  intros Ht Htrail. induction t as [|c t IH]; cbn [append].
  - now apply rskip_all.
  - cbn [any] in Ht. apply orb_false_iff in Ht. destruct Ht as [Hc Ht].
    cbn [rskip]. now rewrite Hc, (IH Ht).
Qed.

Lemma isdigit_not_space c : isdigit c = true -> int_isspace c = false.
Proof.
  destruct c as [[] [] [] [] [] [] [] []]; intros H;
    try reflexivity; discriminate H.
Qed.

Lemma isdigit_not_sign c : isdigit c = true -> c <> "-"%char /\ c <> "+"%char.
Proof. intros H. split; intros ->; discriminate H. Qed.

Lemma digit_groups_chars body :
  AsSpecified.digit_groups body ->
  any int_isspace body = false
  /\ exists c r, body = String c r /\ isdigit c = true.
Proof.
  induction 1 as [c Hc|c s Hc _ [IH _]|c s Hc _ [IH _]]; cbn [any];
    rewrite (isdigit_not_space c Hc), ?IH;
    (split; [reflexivity | now exists c; eexists]).
Qed.

(** The reader follows the grammar: on digit groups it returns their
    value and their number of digits. *)
Lemma digits_from_groups body :
  AsSpecified.digit_groups body ->
  forall prev acc n,
    digits_from prev acc n body =
    Some (AsSpecified.decimal_value_from acc body,
          n + AsSpecified.count_digits body).
Proof.
  induction 1 as [c Hc|c s Hc _ IH|c s Hc _ IH]; intros prev acc n;
    cbn [digits_from AsSpecified.decimal_value_from AsSpecified.count_digits];
    rewrite Hc.
  - do 2 f_equal. lia.
  - rewrite IH. do 2 f_equal. lia.
  - change (isdigit "_") with false. cbn [Ascii.eqb Bool.eqb andb].
    rewrite IH. do 2 f_equal. lia.
Qed.

(** And it returns on nothing else. *)
Lemma digits_from_sound body :
  forall prev acc n v k,
    digits_from prev acc n body = Some (v, k) ->
    v = AsSpecified.decimal_value_from acc body
    /\ k = n + AsSpecified.count_digits body
    /\ (AsSpecified.digit_groups body
        \/ prev = true
           /\ (body = EmptyString
               \/ exists r, body = String "_" r /\ AsSpecified.digit_groups r)).
Proof.
  induction body as [|c r IH]; intros prev acc n v k;
    cbn [digits_from AsSpecified.decimal_value_from AsSpecified.count_digits].
  - destruct prev; [|discriminate]. intros H. injection H as <- <-.
    repeat split; [lia|]. right. split; [reflexivity | now left].
  - destruct (isdigit c) eqn:Hc.
    + intros H. apply IH in H. destruct H as (-> & -> & Hr).
      repeat split; [lia|]. left.
      destruct Hr as [Hr|[_ [->|(r' & -> & Hr)]]].
      * now apply AsSpecified.digit_then_digit.
      * now apply AsSpecified.last_digit.
      * now apply AsSpecified.digit_then_underscore.
    + destruct (Ascii.eqb c "_" && prev) eqn:Hu; [|discriminate].
      apply andb_true_iff in Hu. destruct Hu as [Hu ->].
      apply Ascii.eqb_eq in Hu. subst c.
      intros H. apply IH in H. destruct H as (-> & -> & Hr).
      repeat split. right. split; [reflexivity|]. right. exists r.
      split; [reflexivity|].
      destruct Hr as [Hr|[Hfalse _]]; [exact Hr | discriminate Hfalse].
Qed.

(** [int] returns a number exactly on the integer literals, and the number
    is the value of the literal. *)
Lemma int_integer_literal text z :
  int text = Ok z <-> AsSpecified.integer_literal text z.
Proof.
  split.
  - intros H. destruct (int_cases text) as (neg & body & Hcase & Hint).
    rewrite Hint in H.
    destruct (digits_from false 0%Z 0 body) as [[v n]|] eqn:Hd; [|discriminate].
    destruct (n <=? int_max_str_digits) eqn:Hn; [|discriminate].
    injection H as <-. apply Nat.leb_le in Hn.
    apply digits_from_sound in Hd. destruct Hd as (-> & -> & Hbody).
    destruct Hbody as [Hbody|[Hfalse _]]; [|discriminate Hfalse].
    destruct (lskip_split int_isspace text) as (lead & Htext & Hlead).
    destruct (rskip_split int_isspace (lskip int_isspace text))
      as (trail & Hmid & Htrail).
    rewrite Hmid in Htext. clear Hmid.
    destruct Hcase as [[Ht ->]|[[Ht ->]|(Ht & -> & _)]]; rewrite Ht in Htext.
    + exists lead, "-"%string, body, trail. repeat split; try assumption.
      right. now split.
    + exists lead, "+"%string, body, trail. repeat split; try assumption.
      left. split; [now right | reflexivity].
    + exists lead, EmptyString, body, trail. repeat split; try assumption.
      left. split; [now left | reflexivity].
  - intros (lead & sign & body & trail & -> & Hlead & Htrail & Hbody & Hn & Hsign).
    destruct (digit_groups_chars body Hbody) as (Hspace & c & r & Hcr & Hc).
    assert (Hnospace : any int_isspace (sign ++ body) = false).
    { rewrite any_app, Hspace.
      destruct Hsign as [[[->| ->] _]|[-> _]]; reflexivity. }
    assert (Hskip : rskip int_isspace
                      (lskip int_isspace (lead ++ sign ++ body ++ trail))
                    = (sign ++ body)%string).
    { rewrite (lskip_lead _ _ _ Hlead), <- append_assoc.
      assert (Hl : lskip int_isspace ((sign ++ body) ++ trail)
                   = ((sign ++ body) ++ trail)%string).
      { destruct (sign ++ body)%string as [|c' r'] eqn:Hsb.
        - exfalso. subst body. destruct sign; discriminate Hsb.
        - cbn [any] in Hnospace. apply orb_false_iff in Hnospace.
          destruct Hnospace as [Hc' _]. cbn [append lskip]. now rewrite Hc'. }
      rewrite Hl. now apply rskip_trail. }
    destruct (int_cases (lead ++ sign ++ body ++ trail))
      as (neg & body' & Hcase & ->).
    rewrite Hskip in Hcase.
    assert (Hread : body' = body
                    /\ z = if neg then (- AsSpecified.decimal_value body)%Z
                           else AsSpecified.decimal_value body).
    { destruct (isdigit_not_sign c Hc) as [Hminus Hplus]. subst body.
      destruct Hsign as [[[->| ->] ->]|[-> ->]]; cbn [append] in Hcase;
        destruct Hcase as [[Ht ->]|[[Ht ->]|(Ht & -> & Hnm & Hnp)]];
        try (injection Ht as Ht; try subst body'; try congruence);
        try discriminate Ht;
        try (now split);
        try (exfalso; now apply (Hnm (String c r)));
        try (exfalso; now apply (Hnp (String c r))). }
    destruct Hread as [-> ->].
    rewrite (digits_from_groups body Hbody). cbn [Nat.add].
    apply Nat.leb_le in Hn. now rewrite Hn.
Qed.

Example int_sign_inside : int "1-2" = Raise (ValueError "1-2").
Proof. reflexivity. Qed.

Example int_lone_sign : int "-" = Raise (ValueError "-").
Proof. reflexivity. Qed.

Example int_unit_separator :
  int (String (ascii_of_nat 31) "12") =
  Raise (ValueError (String (ascii_of_nat 31) "12")).
Proof. reflexivity. Qed.

Example strip_unit_separator : strip (String (ascii_of_nat 31) "12") = "12".
Proof. reflexivity. Qed.

Example int_no_break_space : int (String (ascii_of_nat 160) "12") = Ok 12%Z.
Proof. reflexivity. Qed.

Lemma lstrip_head s c r : lstrip s = String c r -> isspace c = false.
Proof.
  induction s as [|c' s IH]; simpl; [discriminate|].
  destruct (isspace c') eqn:Hc; [exact IH|].
  intros H. injection H as <- _. exact Hc.
Qed.

(** [strip] leaves nothing exactly of the texts that hold whitespace only. *)
Lemma strip_is_empty s :
  is_empty (strip s) = negb (any (fun c => negb (isspace c)) s).
Proof.
  rewrite <- (any_strip (fun c => negb (isspace c)) s).
  2:{ intros c Hc. now destruct (isspace c). }
  unfold strip. destruct (lstrip s) as [|c r] eqn:Hl; [reflexivity|].
  apply lstrip_head in Hl. cbn [rstrip]. rewrite Hl. cbn [andb is_empty any].
  now rewrite Hl.
Qed.

(** [zfill(2)] is plain left padding, except on a lone sign. *)
Lemma zfill_2 s :
  zfill 2 s =
  match s with
  | String c EmptyString => if is_sign c then String c "0" else rjust 2 "0" s
  | _ => rjust 2 "0" s
  end.
Proof.
  destruct s as [|c [|c' r]]; reflexivity.
Qed.

End PyStrFacts.

(** ** Dates *)

Module DatetimeFacts.

Import Datetime.

Local Open Scope Z_scope.

Example strftime_august_1 :
  strftime "%Y-%m-%d" (mkdate 2024 8 1 eq_refl) = "2024-08-01"%string.
Proof. reflexivity. Qed.

Example strftime_year_33 :
  strftime "%Y-%m-%d" (mkdate 33 12 25 eq_refl) = "33-12-25"%string.
Proof. reflexivity. Qed.

Lemma all_upto_spec p n :
  all_upto p n = true -> forall z, 0 <= z <= Z.of_nat n -> p z = true.
Proof.
  induction n as [|k IH]; simpl all_upto; intros H z Hz.
  - assert (z = 0) by lia. now subst.
  - apply andb_true_iff in H. destruct H as [H1 H2].
    destruct (Z.eq_dec z (Z.of_nat (S k))) as [->|Hne]; [exact H1|].
    apply IH; [exact H2 | lia].
Qed.


Lemma zero_padded_2 m : 0 <= m <= 99 -> zero_padded 2 m = two_digits m.
Proof.
  intros Hm. apply String.eqb_eq.
  apply (all_upto_spec (fun z => String.eqb (zero_padded 2 z) (two_digits z))
           (Z.to_nat 99)); [vm_compute; reflexivity | lia].
Qed.

Lemma date_bounds (d : date) :
  1 <= year d <= 9999 /\ 1 <= month d <= 12 /\ 1 <= day d <= 31.
Proof.
  destruct d as [y m dd Hok]. simpl. unfold valid_date in Hok.
  repeat (apply andb_true_iff in Hok; destruct Hok as [Hok ?]).
  assert (days_in_month y m <= 31).
  { unfold days_in_month.
    repeat match goal with
           | |- context [match ?x with _ => _ end] => destruct x
           end; lia. }
  lia.
Qed.

(** What the format of the script writes: the year as it is, then month
    and day with two digits each. *)
Lemma strftime_year_month_day (d : date) :
  strftime "%Y-%m-%d" d =
  (PyStr.str_of_int (year d) ++ "-" ++ two_digits (month d) ++ "-"
   ++ two_digits (day d))%string.
Proof.
  destruct (date_bounds d) as (Hy & Hm & Hd).
  cbn [strftime]. unfold directive. cbn [Ascii.eqb Bool.eqb].
  rewrite !zero_padded_2 by lia.
  reflexivity.
Qed.


Lemma digit_char_isdigit n : PyStr.isdigit (digit_char n) = true.
Proof.
  unfold digit_char.
  assert (H : 0 <= n mod 10 < 10) by (apply Z.mod_pos_bound; lia).
  assert (Hn : exists k, (k < 10)%nat /\ Z.to_nat (n mod 10) = k).
  { exists (Z.to_nat (n mod 10)). split; [lia | reflexivity]. }
  destruct Hn as (k & Hk & ->).
  do 10 (destruct k as [|k]; [reflexivity|]). lia.
Qed.

End DatetimeFacts.

(** ** Fallible comprehensions *)

Module ResultFacts.

Lemma traverse_ok {A B : Type} (f : A -> result B) xs ys :
  traverse f xs = Ok ys <-> Forall2 (fun x y => f x = Ok y) xs ys.
Proof.
  revert ys. induction xs as [|x xs IH]; intros ys; simpl.
  - split; intros H.
    + injection H as <-. constructor.
    + inversion H. reflexivity.
  - split; intros H.
    + destruct (f x) as [y|e] eqn:Hx; simpl in H; [|discriminate].
      destruct (traverse f xs) as [ys'|e] eqn:Hxs; simpl in H; [|discriminate].
      injection H as <-. constructor; [exact Hx | now apply IH].
    + inversion H as [|x' y xs' ys' Hx Hxs]; subst.
      rewrite Hx. simpl. apply IH in Hxs. now rewrite Hxs.
Qed.

Lemma traverse_raise {A B : Type} (f : A -> result B) xs x e :
  In x xs -> f x = Raise e -> exists e', traverse f xs = Raise e'.
Proof.
  intros Hin Hx. destruct (traverse f xs) as [ys|e'] eqn:Ht; [|now exists e'].
  exfalso. apply traverse_ok in Ht.
  induction Ht as [|x' y xs' ys' Hy _ IH]; [destruct Hin|].
  destruct Hin as [->|Hin]; [congruence | now apply IH].
Qed.

Lemma traverse_raised {A B : Type} (f : A -> result B) xs e :
  traverse f xs = Raise e -> exists x, In x xs /\ f x = Raise e.
Proof.
  induction xs as [|x xs IH]; simpl; [discriminate|].
  destruct (f x) as [y|e'] eqn:Hx; simpl.
  - destruct (traverse f xs) as [ys|e'] eqn:Hxs; simpl; [discriminate|].
    intros H. injection H as ->. destruct (IH eq_refl) as (x' & Hin & Hx').
    exists x'. split; [now right | exact Hx'].
  - intros H. injection H as ->. exists x. split; [now left | exact Hx].
Qed.

Lemma traverse_ext {A B : Type} (f g : A -> result B) xs :
  (forall x, In x xs -> f x = g x) -> traverse f xs = traverse g xs.
Proof.
  induction xs as [|x xs IH]; intros H; simpl; [reflexivity|].
  rewrite (H x (or_introl eq_refl)), IH; [reflexivity|].
  intros y Hy. apply H. now right.
Qed.

Lemma Forall2_In_r {A B : Type} (R : A -> B -> Prop) xs ys y :
  Forall2 R xs ys -> In y ys -> exists x, In x xs /\ R x y.
Proof.
  induction 1 as [|x y' xs ys Hxy _ IH]; intros Hin; [destruct Hin|].
  destruct Hin as [<-|Hin].
  - exists x. split; [now left | exact Hxy].
  - destruct (IH Hin) as (x' & Hx' & HR). exists x'. split; [now right | exact HR].
Qed.

Lemma Forall2_In_l {A B : Type} (R : A -> B -> Prop) xs ys x :
  Forall2 R xs ys -> In x xs -> exists y, In y ys /\ R x y.
Proof.
  induction 1 as [|x' y xs ys Hxy _ IH]; intros Hin; [destruct Hin|].
  destruct Hin as [<-|Hin].
  - exists y. split; [now left | exact Hxy].
  - destruct (IH Hin) as (y' & Hy' & HR). exists y'. split; [now right | exact HR].
Qed.

Lemma traverse_length {A B : Type} (f : A -> result B) xs ys :
  traverse f xs = Ok ys -> length ys = length xs.
Proof.
  intros H. apply traverse_ok in H. symmetry. exact (Forall2_length H).
Qed.

End ResultFacts.

(** ** The report fetcher and the run *)

Module AppFacts.

Import GA4 Pandas App ResultFacts.

#[local] Arguments dict_getitem : simpl never.

Lemma flatten_rows_traverse site_name regex response_rows acc :
  flatten_rows site_name regex response_rows acc =
  let? out := traverse (flatten_row site_name regex) response_rows in
  Ok (acc ++ out).
Proof.
  revert acc. induction response_rows as [|row rest IH]; intros acc; simpl.
  - now rewrite app_nil_r.
  - destruct (flatten_row site_name regex row) as [r|e]; simpl; [|reflexivity].
    rewrite IH.
    destruct (traverse (flatten_row site_name regex) rest); simpl; [|reflexivity].
    now rewrite <- app_assoc.
Qed.

(** No id stands twice in the directory, so the first entry found for a
    key is the entry of the dict. *)
Lemma directory_keys_distinct : NoDup (map fst view_id_name_mapping).
Proof.
  apply (NoDup_count_occ' string_dec). intros k Hk.
  simpl in Hk.
  repeat (destruct Hk as [<-|Hk]; [reflexivity|]). destruct Hk.
Qed.

Lemma flatten_row_ok site_name regex row r :
  flatten_row site_name regex row = Ok r <->
  exists d0 d1 drest m0 m1 mrest total_users pageviews,
    dimension_values row = d0 :: d1 :: drest
    /\ metric_values row = m0 :: m1 :: mrest
    /\ PyStr.int (metric_value m0) = Ok total_users
    /\ PyStr.int (metric_value m1) = Ok pageviews
    /\ r = {| Site := site_name;
              Year_Month := dimension_value d0 ++ "-"
                            ++ PyStr.zfill 2 (dimension_value d1);
              Total_Users := total_users;
              Pageviews := pageviews;
              Regex := regex |}.
Proof.
  destruct row as [dims mets]. unfold flatten_row, getitem.
  cbn [dimension_values metric_values].
  split.
  - destruct dims as [|d0 [|d1 drest]]; cbn [nth_error bindR]; try discriminate.
    destruct mets as [|m0 mets]; cbn [nth_error bindR]; try discriminate.
    destruct (PyStr.int (metric_value m0)) as [tu|e] eqn:H0; cbn [bindR];
      try discriminate.
    destruct mets as [|m1 mrest]; cbn [nth_error bindR]; try discriminate.
    destruct (PyStr.int (metric_value m1)) as [pv|e] eqn:H1; cbn [bindR];
      try discriminate.
    intros H. injection H as <-.
    exists d0, d1, drest, m0, m1, mrest, tu, pv. repeat split; assumption.
  - intros (d0 & d1 & drest & m0 & m1 & mrest & tu & pv & -> & -> & H0 & H1 & ->).
    cbn [nth_error bindR]. rewrite H0. cbn [bindR]. now rewrite H1.
Qed.

Lemma flatten_row_narrow_dimensions site_name regex row :
  length (dimension_values row) < 2 ->
  flatten_row site_name regex row = Raise IndexError.
Proof.
  destruct row as [[|d0 [|d1 drest]] mets]; simpl; intros H;
    try reflexivity; lia.
Qed.

(** C2 (as amended): a flattened row has a year and a month value, and
    its Year_Month is the year, a hyphen and the month under [zfill(2)]:
    the month left-padded with zeros to width two, except that a month
    that is a lone sign keeps the sign in front of the zero. *)
Theorem year_month_zfill site_name regex row r :
  flatten_row site_name regex row = Ok r ->
  exists d0 d1 rest,
    dimension_values row = d0 :: d1 :: rest
    /\ Year_Month r =
       (dimension_value d0 ++ "-"
        ++ AsSpecified.month_field (dimension_value d1))%string.
Proof.
  intros H. apply flatten_row_ok in H.
  destruct H as (d0 & d1 & drest & m0 & m1 & mrest & tu & pv & Hd & _ & _ & _ & ->).
  exists d0, d1, drest. split; [exact Hd|].
  cbn [Year_Month]. now rewrite PyStrFacts.zfill_2.
Qed.

Section RunFacts.

Variable Client : Type.
Variable new_client : list byte -> result Client.
Variable run_report : Client -> RunReportRequest -> result RunReportResponse.
Variable os : os_name.
Variable st_dataframe_error : DataFrame -> option exn.

Local Abbreviation fetch_ga4_data := (App.fetch_ga4_data Client run_report).
Local Abbreviation for_regex := (App.for_regex Client run_report).
Local Abbreviation for_property := (App.for_property Client run_report).
Local Abbreviation show := (App.show os st_dataframe_error).
Local Abbreviation main :=
  (App.main Client new_client run_report os st_dataframe_error).
Local Abbreviation fetched := (App.fetched Client run_report).
Local Abbreviation site_rows := (App.site_rows Client run_report).
Local Abbreviation call := (App.call Client run_report).
Local Abbreviation shown := (App.shown os st_dataframe_error).
Local Abbreviation show_result := (App.show_result os st_dataframe_error).

Lemma fetched_eq client property_id site_name regex start_date end_date :
  fetched client property_id site_name regex start_date end_date =
  let? response :=
    run_report client (build_request property_id regex start_date end_date) in
  traverse (flatten_row site_name regex) (rows response).
Proof.
  unfold fetched, App.fetch_ga4_data, client_run_report, bind, emit, lift.
  simpl.
  destruct (run_report client _) as [response|e]; simpl; [|reflexivity].
  rewrite flatten_rows_traverse.
  now destruct (traverse _ _).
Qed.

Lemma fetch_ga4_data_run client property_id site_name regex start_date end_date log :
  fetch_ga4_data client property_id site_name regex start_date end_date log =
  (fetched client property_id site_name regex start_date end_date,
   log ++ [run_report_sent (build_request property_id regex start_date end_date)]).
Proof.
  unfold fetched, App.fetch_ga4_data, client_run_report, bind, emit, lift.
  simpl.
  now destruct (run_report client _).
Qed.

(** The inner loop returns the rows of its calls in order, after what was
    collected before, or the first exception. *)
Lemma for_regex_value client property_id site_name start_date end_date
    regex_list final_data log :
  fst (for_regex client property_id site_name start_date end_date
         regex_list final_data log) =
  let? fetched_lists :=
    traverse (fun regex => fetched client property_id site_name regex
                             start_date end_date) regex_list in
  Ok (final_data ++ concat fetched_lists).
Proof.
  revert final_data log.
  induction regex_list as [|regex rest IH]; intros final_data log; simpl.
  - now rewrite app_nil_r.
  - unfold bind. rewrite fetch_ga4_data_run.
    destruct (fetched client property_id site_name regex start_date end_date)
      as [rows|e]; simpl; [|reflexivity].
    rewrite IH.
    destruct (traverse _ rest); simpl; [|reflexivity].
    now rewrite app_assoc.
Qed.

Lemma for_regex_log client property_id site_name start_date end_date
    regex_list final_data log :
  exists n,
    snd (for_regex client property_id site_name start_date end_date
           regex_list final_data log) =
    log ++ map (fun regex => run_report_sent
                  (build_request property_id regex start_date end_date))
             (firstn n regex_list)
    /\ (is_ok (fst (for_regex client property_id site_name start_date end_date
                      regex_list final_data log)) = true ->
        firstn n regex_list = regex_list).
Proof.
  revert final_data log.
  induction regex_list as [|regex rest IH]; intros final_data log; simpl.
  - exists 0. simpl. now rewrite app_nil_r.
  - unfold bind. rewrite fetch_ga4_data_run.
    destruct (fetched client property_id site_name regex start_date end_date)
      as [rows|e]; simpl.
    + destruct (IH (final_data ++ rows)
                  (log ++ [run_report_sent
                             (build_request property_id regex start_date end_date)]))
        as (n & Hlog & Hok).
      exists (S n). rewrite Hlog. simpl. rewrite <- app_assoc. simpl.
      split; [reflexivity|]. intros H. now rewrite (Hok H).
    + exists 1. simpl. split; [reflexivity | discriminate].
Qed.

Lemma for_property_value client start_date end_date regex_list sites final_data log :
  fst (for_property client start_date end_date regex_list sites final_data log) =
  let? chunks := traverse (site_rows client start_date end_date regex_list) sites in
  Ok (final_data ++ concat chunks).
Proof.
  revert final_data log.
  induction sites as [|property_id rest IH]; intros final_data log; simpl.
  - now rewrite app_nil_r.
  - unfold bind, lift, site_rows.
    destruct (dict_getitem view_id_name_mapping property_id) as [site_name|e];
      simpl; [|reflexivity].
    pose proof (for_regex_value client property_id site_name start_date end_date
                  regex_list final_data log) as Hv.
    destruct (for_regex client property_id site_name start_date end_date
                regex_list final_data log) as [[d|e] log'] eqn:Hrun;
      simpl in Hv;
      destruct (traverse _ regex_list) as [lists|e']; simpl in Hv |- *;
      try discriminate.
    + injection Hv as ->. rewrite IH.
      fold (site_rows client start_date end_date regex_list).
      destruct (traverse (site_rows client start_date end_date regex_list) rest);
        simpl; [|reflexivity].
      now rewrite <- app_assoc.
    + exact Hv.
Qed.

Lemma for_property_log client start_date end_date regex_list sites final_data log :
  exists pairs,
    snd (for_property client start_date end_date regex_list sites final_data log) =
    log ++ map (fun pair => run_report_sent (request_of start_date end_date pair)) pairs
    /\ (is_ok (fst (for_property client start_date end_date regex_list sites
                      final_data log)) = true ->
        pairs = list_prod sites regex_list).
Proof.
  revert final_data log.
  induction sites as [|property_id rest IH]; intros final_data log; simpl.
  - exists []. simpl. now rewrite app_nil_r.
  - unfold bind, lift.
    destruct (dict_getitem view_id_name_mapping property_id) as [site_name|e]; simpl.
    2:{ exists []. simpl. rewrite app_nil_r. split; [reflexivity | discriminate]. }
    destruct (for_regex_log client property_id site_name start_date end_date
                regex_list final_data log) as (n & Hlog & Hok).
    destruct (for_regex client property_id site_name start_date end_date
                regex_list final_data log) as [[d|e] log'] eqn:Hrun; simpl in *.
    + rewrite (Hok eq_refl) in Hlog. subst log'.
      destruct (IH d (log ++ map (fun regex => run_report_sent
                         (build_request property_id regex start_date end_date))
                       regex_list)) as (pairs & Hlog' & Hok').
      exists (map (fun regex => (property_id, regex)) regex_list ++ pairs).
      rewrite Hlog', map_app, map_map, <- app_assoc.
      split; [reflexivity|].
      intros H. now rewrite (Hok' H).
    + exists (map (fun regex => (property_id, regex)) (firstn n regex_list)).
      rewrite Hlog, map_map. split; [reflexivity | discriminate].
Qed.

Lemma traverse_app {A B : Type} (f : A -> result B) xs ys :
  traverse f (xs ++ ys) =
  let? a := traverse f xs in let? b := traverse f ys in Ok (a ++ b).
Proof.
  induction xs as [|x xs IH]; simpl.
  - now destruct (traverse f ys).
  - destruct (f x); simpl; [|reflexivity].
    rewrite IH. destruct (traverse f xs); simpl; [|reflexivity].
    now destruct (traverse f ys).
Qed.

Lemma traverse_map {A B C : Type} (g : A -> B) (f : B -> result C) xs :
  traverse f (map g xs) = traverse (fun x => f (g x)) xs.
Proof.
  induction xs as [|x xs IH]; simpl; [reflexivity|]. now rewrite IH.
Qed.

Lemma site_rows_in_directory client start_date end_date regex_list sites chunks :
  traverse (site_rows client start_date end_date regex_list) sites = Ok chunks ->
  forallb in_directory sites = true.
Proof.
  intros H. apply traverse_ok in H.
  induction H as [|property_id chunk rest chunks' Hp _ IH]; [reflexivity|].
  simpl. rewrite IH, andb_true_r. unfold in_directory, site_rows in *.
  now destruct (dict_getitem view_id_name_mapping property_id).
Qed.

(** With every selected property in the directory, the nested loops are
    one pass over the pairs of the matrix in traversal order. *)
Lemma site_rows_matrix client start_date end_date regex_list sites :
  forallb in_directory sites = true ->
  (let? chunks := traverse (site_rows client start_date end_date regex_list) sites in
   Ok (concat chunks)) =
  (let? lists := traverse (call client start_date end_date)
                   (list_prod sites regex_list) in
   Ok (concat lists)).
Proof.
  induction sites as [|property_id rest IH]; intros Hdir; simpl; [reflexivity|].
  simpl in Hdir. apply andb_true_iff in Hdir. destruct Hdir as [Hp Hrest].
  specialize (IH Hrest).
  rewrite traverse_app, traverse_map.
  unfold site_rows at 1. unfold in_directory in Hp.
  destruct (dict_getitem view_id_name_mapping property_id) as [site_name|e] eqn:Hn;
    [|discriminate]. simpl.
  rewrite (traverse_ext (fun regex => call client start_date end_date (property_id, regex))
             (fun regex => fetched client property_id site_name regex start_date end_date)).
  2:{ intros regex _. unfold call. simpl. now rewrite Hn. }
  destruct (traverse _ regex_list) as [lists|e]; simpl; [|reflexivity].
  destruct (traverse (site_rows client start_date end_date regex_list) rest)
    as [chunks|e]; simpl in *;
    destruct (traverse (call client start_date end_date) (list_prod rest regex_list))
      as [lists'|e']; simpl in *; try discriminate.
  - injection IH as IH. now rewrite concat_app, IH.
  - exact IH.
Qed.

(** [show] adds the same events, and ends the same way, after any log. *)
Lemma show_run final_data log :
  show final_data log = (show_result final_data, log ++ shown final_data).
Proof.
  unfold App.show_result, App.shown, App.show, show_dataframe.
  destruct final_data as [|r rest]; [reflexivity|].
  unfold bind, emit, lift.
  destruct (st_dataframe_error _) as [e|]; cbn; [reflexivity|].
  now rewrite <- !app_assoc.
Qed.

(** What [show] does with a dataset that is not empty: the count of rows,
    then the table; if the table widget raises the run ends there, and
    otherwise the download follows. *)
Lemma show_dataset final_data :
  final_data <> [] ->
  match st_dataframe_error (DataFrame_of final_data) with
  | None =>
      show_result final_data = Ok tt
      /\ shown final_data =
         [ st_success (length final_data);
           st_dataframe (DataFrame_of final_data);
           st_download_button
             (PyStr.encode_utf8 (to_csv (linesep os) (DataFrame_of final_data)))
             "ga4_category_report.csv" "text/csv" ]
  | Some e =>
      show_result final_data = Raise e
      /\ shown final_data = [ st_success (length final_data) ]
  end.
Proof.
  intros Hdata. destruct final_data as [|r rest]; [contradiction|].
  unfold App.show_result, App.shown, App.show, show_dataframe, bind, emit, lift.
  assert (Hlen : len (DataFrame_of (r :: rest)) = length (r :: rest)).
  { unfold len, DataFrame_of. cbn [values]. apply length_map. }
  destruct (st_dataframe_error _) as [e|]; cbn [fst snd app]; rewrite Hlen;
    split; reflexivity.
Qed.


Lemma main_started inp credentials log :
  started inp credentials ->
  main inp log =
  App.fetch_and_show Client new_client run_report os st_dataframe_error
    credentials inp log.
Proof.
  intros (Hbtn & Hcred & Hsites & Hregex). unfold App.main.
  rewrite Hbtn, Hcred.
  destruct (selected_sites inp) as [|p ps]; [contradiction|].
  destruct (PyStr.strip (regex_input inp)); [contradiction | reflexivity].
Qed.

Lemma fetch_and_show_run credentials inp client log :
  new_client credentials = Ok client ->
  App.fetch_and_show Client new_client run_report os st_dataframe_error
    credentials inp log =
  match for_property client (start_date inp) (end_date inp)
          (regex_list_of (regex_input inp)) (selected_sites inp) []
          (log ++ [spinner_enter; client_created credentials]) with
  | (Ok final_data, log') =>
      (show_result final_data, log' ++ shown final_data ++ [spinner_exit])
  | (Raise e, log') => (Raise e, log' ++ [spinner_exit])
  end.
Proof.
  intros Hclient. unfold App.fetch_and_show, with_spinner, bind, lift, emit.
  rewrite Hclient. cbn [fst snd]. rewrite <- app_assoc. cbn [app].
  destruct (for_property _ _ _ _ _ _ _) as [[final_data|e] log']; [|reflexivity].
  rewrite show_run. destruct (show_result final_data);
    now rewrite <- app_assoc.
Qed.

Lemma fetch_and_show_no_client credentials inp e log :
  new_client credentials = Raise e ->
  App.fetch_and_show Client new_client run_report os st_dataframe_error
    credentials inp log =
  (Raise e, log ++ [spinner_enter; spinner_exit]).
Proof.
  intros Hclient. unfold App.fetch_and_show, with_spinner, bind, lift.
  rewrite Hclient. now rewrite <- app_assoc.
Qed.

(** C4: with the button pressed, the first gate that fails in the order
    credentials, property selection, regex text is the one condition the
    run reports; the run ends there, with nothing sent to the service and
    no client built. *)
Theorem validation_gate inp log m :
  fetch_btn inp = true ->
  AsSpecified.first_failed_gate inp = Some m ->
  main inp log = (Ok tt, log ++ [st_error m])
  /\ List.filter is_network_event (snd (main inp log))
     = List.filter is_network_event log.
Proof.
  intros Hbtn Hgate.
  assert (Hmain : main inp log = (Ok tt, log ++ [st_error m])).
  { unfold App.main, AsSpecified.first_failed_gate in *. rewrite Hbtn.
    destruct (cred_file inp) as [credentials|].
    - destruct (selected_sites inp) as [|p ps]; simpl in Hgate.
      + injection Hgate as <-. reflexivity.
      + unfold AsSpecified.blank in Hgate.
        rewrite PyStrFacts.strip_is_empty.
        destruct (negb (PyStr.any _ (regex_input inp))); [|discriminate].
        injection Hgate as <-. reflexivity.
    - injection Hgate as <-. reflexivity. }
  split; [exact Hmain|].
  rewrite Hmain. cbn [snd]. rewrite filter_app. simpl. apply app_nil_r.
Qed.

(** When every call of the matrix succeeds, the loops return the
    concatenation of the row lists and log the requests in matrix order. *)
Lemma for_property_complete client start_date end_date regex_list sites log lists :
  forallb in_directory sites = true ->
  Forall2 (fun pair fetched_rows =>
             call client start_date end_date pair = Ok fetched_rows)
    (list_prod sites regex_list) lists ->
  for_property client start_date end_date regex_list sites [] log =
  (Ok (concat lists),
   log ++ map (fun pair => run_report_sent (request_of start_date end_date pair))
            (list_prod sites regex_list)).
Proof.
  intros Hdir Hcalls.
  pose proof (for_property_value client start_date end_date regex_list sites [] log)
    as Hv.
  destruct (for_property_log client start_date end_date regex_list sites [] log)
    as (pairs & Hlog & Hpairs).
  cbn [app] in Hv. apply traverse_ok in Hcalls.
  rewrite (site_rows_matrix client start_date end_date regex_list sites Hdir),
    Hcalls in Hv.
  cbn [bindR] in Hv.
  destruct (for_property client start_date end_date regex_list sites [] log)
    as [r log'].
  cbn [fst snd] in *. subst r. rewrite Hlog, (Hpairs eq_refl). reflexivity.
Qed.

(** Whatever the loops return is the concatenation over the matrix. *)
Lemma for_property_inv client start_date end_date regex_list sites log final_data log' :
  for_property client start_date end_date regex_list sites [] log =
  (Ok final_data, log') ->
  exists lists,
    Forall2 (fun pair fetched_rows =>
               call client start_date end_date pair = Ok fetched_rows)
      (list_prod sites regex_list) lists
    /\ final_data = concat lists.
Proof.
  intros Hrun.
  pose proof (for_property_value client start_date end_date regex_list sites [] log)
    as Hv.
  rewrite Hrun in Hv. cbn [fst app] in Hv.
  destruct (traverse (site_rows client start_date end_date regex_list) sites)
    as [chunks|e] eqn:Hchunks; [|discriminate].
  pose proof (site_rows_in_directory _ _ _ _ _ _ Hchunks) as Hdir.
  pose proof (site_rows_matrix client start_date end_date regex_list sites Hdir)
    as Hm.
  rewrite Hchunks in Hm. cbn [bindR] in Hm, Hv.
  destruct (traverse (call client start_date end_date) (list_prod sites regex_list))
    as [lists|e] eqn:Hlists; [|discriminate].
  cbn [bindR] in Hm.
  exists lists. split; [now apply traverse_ok|]. congruence.
Qed.


(** C3: the final dataset is the concatenation of the row lists of the
    calls, taken over the pairs (property, regex) with the properties in
    the outer position and the regexes in the inner one, each list in the
    order of its response.  When every call of the matrix succeeds the
    loops return that concatenation, having sent the requests in the
    same order; whatever the loops return is such a concatenation; and
    the row list of a call holds one record per row of its response, in
    the order of the response. *)
Theorem final_data_traversal_order client start_date end_date regex_list sites log :
  (forall lists,
     forallb in_directory sites = true ->
     Forall2 (fun pair fetched_rows =>
                call client start_date end_date pair = Ok fetched_rows)
       (list_prod sites regex_list) lists ->
     for_property client start_date end_date regex_list sites [] log =
     (Ok (concat lists),
      log ++ map (fun pair => run_report_sent (request_of start_date end_date pair))
               (list_prod sites regex_list)))
  /\ (forall final_data log',
        for_property client start_date end_date regex_list sites [] log =
        (Ok final_data, log') ->
        exists lists,
          Forall2 (fun pair fetched_rows =>
                     call client start_date end_date pair = Ok fetched_rows)
            (list_prod sites regex_list) lists
          /\ final_data = concat lists)
  /\ (forall pair fetched_rows,
        call client start_date end_date pair = Ok fetched_rows ->
        exists site_name response,
          run_report client (request_of start_date end_date pair) = Ok response
          /\ Forall2 (fun response_row r =>
                        flatten_row site_name (snd pair) response_row = Ok r)
               (rows response) fetched_rows).
Proof.
  split; [|split].
  - intros lists. apply for_property_complete.
  - intros final_data log'. apply for_property_inv.
  - intros pair fetched_rows Hcall. unfold App.call, request_of in *.
    destruct (dict_getitem view_id_name_mapping (fst pair)) as [site_name|e];
      [|discriminate].
    cbn [bindR] in Hcall. rewrite fetched_eq in Hcall.
    destruct (run_report client _) as [response|e]; [|discriminate].
    cbn [bindR] in Hcall. exists site_name, response.
    split; [reflexivity | now apply traverse_ok].
Qed.



(** C8: a record of the final dataset comes from one call of the matrix:
    its Regex is the regex of that call, its Site is the name the
    directory gives for the property of that call, and it is the
    flattening of a row of the response to that call. *)
Theorem row_provenance client start_date end_date regex_list sites log
    final_data log' row :
  for_property client start_date end_date regex_list sites [] log =
  (Ok final_data, log') ->
  In row final_data ->
  exists property_id regex response response_row,
    In property_id sites
    /\ In regex regex_list
    /\ run_report client (build_request property_id regex start_date end_date)
       = Ok response
    /\ In response_row (rows response)
    /\ flatten_row (Site row) regex response_row = Ok row
    /\ Regex row = regex
    /\ dict_getitem view_id_name_mapping property_id = Ok (Site row).
Proof.
  intros Hrun Hrow. apply for_property_inv in Hrun.
  destruct Hrun as (lists & Hcalls & ->).
  apply in_concat in Hrow. destruct Hrow as (fetched_rows & Hlist & Hrow).
  destruct (Forall2_In_r _ _ _ _ Hcalls Hlist) as ([property_id regex] & Hpair & Hcall).
  apply in_prod_iff in Hpair. destruct Hpair as [Hp Hr].
  unfold App.call in Hcall. cbn [fst snd] in Hcall.
  destruct (dict_getitem view_id_name_mapping property_id) as [site_name|e] eqn:Hname;
    [|discriminate].
  cbn [bindR] in Hcall. rewrite fetched_eq in Hcall.
  destruct (run_report client (build_request property_id regex start_date end_date))
    as [response|e] eqn:Hresp; [|discriminate].
  cbn [bindR] in Hcall. apply traverse_ok in Hcall.
  destruct (Forall2_In_r _ _ _ _ Hcall Hrow) as (response_row & Hin & Hflat).
  assert (Hfields : Site row = site_name /\ Regex row = regex).
  { apply flatten_row_ok in Hflat.
    destruct Hflat as (? & ? & ? & ? & ? & ? & ? & ? & _ & _ & _ & _ & ->).
    split; reflexivity. }
  destruct Hfields as [Hsite Hregex].
  exists property_id, regex, response, response_row.
  rewrite Hsite. repeat split; assumption.
Qed.

Lemma Forall2_map_r {A B : Type} (R : A -> B -> Prop) (g : A -> B) xs :
  (forall x, In x xs -> R x (g x)) -> Forall2 R xs (map g xs).
Proof.
  induction xs as [|x xs IH]; intros H; simpl; constructor.
  - apply H. now left.
  - apply IH. intros y Hy. apply H. now right.
Qed.

Lemma concat_map_nil {A B : Type} (xs : list A) :
  concat (map (fun _ => @nil B) xs) = [].
Proof. induction xs; simpl; auto. Qed.

Lemma call_zero_rows client start_date end_date pair :
  call client start_date end_date pair = Ok [] ->
  exists response,
    run_report client (request_of start_date end_date pair) = Ok response
    /\ rows response = [].
Proof.
  unfold App.call, request_of. intros H.
  destruct (dict_getitem view_id_name_mapping (fst pair)); [|discriminate].
  cbn [bindR] in H. rewrite fetched_eq in H.
  destruct (run_report client _) as [response|e]; [|discriminate].
  cbn [bindR] in H. exists response. split; [reflexivity|].
  apply traverse_length in H. symmetry in H.
  now apply length_zero_iff_nil in H.
Qed.

(** C7: when the run has passed the gate, every selected property is in
    the directory and every call of the matrix answers with zero rows,
    the run ends normally: it sends the requests of the matrix and shows
    the no-data warning, which is no error message, and no dataset.
    Conversely the loops return an empty dataset only if the response to
    every call of the matrix has zero rows. *)
Theorem no_data_condition inp credentials client log :
  started inp credentials ->
  new_client credentials = Ok client ->
  (forallb in_directory (selected_sites inp) = true ->
   (forall pair, In pair (matrix inp) ->
      exists response,
        run_report client (request_of (start_date inp) (end_date inp) pair)
        = Ok response
        /\ rows response = []) ->
   main inp log =
   (Ok tt,
    log ++ [spinner_enter; client_created credentials]
    ++ map (fun pair => run_report_sent
                          (request_of (start_date inp) (end_date inp) pair))
         (matrix inp)
    ++ [st_warning_no_data; spinner_exit]))
  /\ (forall log0 log1,
        for_property client (start_date inp) (end_date inp)
          (regex_list_of (regex_input inp)) (selected_sites inp) [] log0
        = (Ok [], log1) ->
        forall pair, In pair (matrix inp) ->
          exists response,
            run_report client (request_of (start_date inp) (end_date inp) pair)
            = Ok response
            /\ rows response = []).
Proof.
  intros Hstart Hclient. split.
  - intros Hdir Hempty.
    rewrite (main_started _ _ _ Hstart), (fetch_and_show_run _ _ _ _ Hclient).
    rewrite (for_property_complete client (start_date inp) (end_date inp)
               (regex_list_of (regex_input inp)) (selected_sites inp)
               (log ++ [spinner_enter; client_created credentials])
               (map (fun _ => []) (matrix inp)) Hdir).
    + rewrite concat_map_nil. cbn. now rewrite <- !app_assoc.
    + apply Forall2_map_r. intros [property_id regex] Hin.
      destruct (Hempty _ Hin) as (response & Hresp & Hrows).
      apply in_prod_iff in Hin. destruct Hin as [Hp _].
      unfold App.call. cbn [fst snd].
      rewrite forallb_forall in Hdir. specialize (Hdir _ Hp).
      unfold in_directory in Hdir.
      destruct (dict_getitem view_id_name_mapping property_id) as [site_name|e];
        [|discriminate].
      cbn [bindR]. rewrite fetched_eq.
      unfold request_of in Hresp. cbn [fst snd] in Hresp.
      rewrite Hresp. cbn [bindR]. now rewrite Hrows.
  - intros log0 log1 Hrun pair Hin. apply for_property_inv in Hrun.
    destruct Hrun as (lists & Hcalls & Hnil).
    symmetry in Hnil. apply concat_nil_Forall in Hnil.
    destruct (Forall2_In_l _ _ _ _ Hcalls Hin) as (fetched_rows & Hlist & Hcall).
    rewrite Forall_forall in Hnil. rewrite (Hnil _ Hlist) in Hcall.
    now apply call_zero_rows.
Qed.

Lemma special_linesep c :
  special (linesep os) c =
  Ascii.eqb c delimiter || Ascii.eqb c quotechar || AsSpecified.line_end_char os c.
Proof.
  unfold special, linesep, AsSpecified.line_end_char.
  destruct os; cbn [PyStr.any];
    destruct (Ascii.eqb c delimiter), (Ascii.eqb c quotechar),
      (Ascii.eqb c CR), (Ascii.eqb c LF); reflexivity.
Qed.

Lemma write_field_csv_field text :
  write_field (linesep os) text = AsSpecified.csv_field os text.
Proof.
  unfold write_field, AsSpecified.csv_field, AsSpecified.plain.
  assert (H : PyStr.any (special (linesep os)) text =
              PyStr.any (fun c => Ascii.eqb c delimiter || Ascii.eqb c quotechar
                                  || AsSpecified.line_end_char os c) text).
  { induction text as [|c text IH]; cbn [PyStr.any]; [reflexivity|].
    rewrite IH, special_linesep. reflexivity. }
  rewrite H. clear H.
  match goal with |- context [negb ?b] => destruct b end; reflexivity.
Qed.

Lemma writerow_five a b c d e :
  writerow (linesep os) [a; b; c; d; e] =
  (PyStr.join "," (map (AsSpecified.csv_field os) [a; b; c; d; e])
   ++ linesep os)%string.
Proof.
  unfold writerow. cbn [map]. rewrite !write_field_csv_field.
  destruct a; reflexivity.
Qed.

Lemma header_fields :
  PyStr.join "," (map (AsSpecified.csv_field os)
                    ["Site"; "Year_Month"; "Total_Users"; "Pageviews"; "Regex"])
  = AsSpecified.header.
Proof. destruct os; reflexivity. Qed.

Lemma to_csv_text data :
  to_csv (linesep os) (DataFrame_of data) = AsSpecified.csv_text os data.
Proof.
  unfold to_csv, AsSpecified.csv_text, DataFrame_of. cbn [columns values].
  rewrite writerow_five, header_fields.
  rewrite PyStrFacts.append_assoc. do 2 f_equal.
  induction data as [|r rest IH]; [reflexivity|].
  cbn [map concat_str cell_text]. rewrite writerow_five, IH. reflexivity.
Qed.

Lemma plain_uint d : AsSpecified.plain os (NilEmpty.string_of_uint d) = true.
Proof.
  unfold AsSpecified.plain, AsSpecified.line_end_char.
  destruct os; induction d; simpl in *; auto.
Qed.

Lemma plain_str_of_int z : AsSpecified.plain os (PyStr.str_of_int z) = true.
Proof.
  unfold PyStr.str_of_int, NilZero.string_of_int, NilZero.string_of_uint.
  destruct (Z.to_int z) as [d|d].
  - destruct d; try (destruct os; reflexivity); apply plain_uint.
  - assert (Hminus : forall t, AsSpecified.plain os t = true ->
                       AsSpecified.plain os (String "-" t) = true).
    { intros t Ht. unfold AsSpecified.plain in *. cbn [PyStr.any].
      replace (Ascii.eqb "-" delimiter || Ascii.eqb "-" quotechar
               || AsSpecified.line_end_char os "-") with false
        by (destruct os; reflexivity).
      exact Ht. }
    apply Hminus.
    destruct d; try (destruct os; reflexivity); apply plain_uint.
Qed.

(** C5 (as amended): for a dataset that is not empty the count of rows is
    shown and the table widget is handed the frame.  When the widget
    displays it, the file offered is named ga4_category_report.csv, of
    type text/csv, and holds the UTF-8 bytes of a text that is the header
    line Site,Year_Month,Total_Users,Pageviews,Regex and then one record
    per ReportRow, in dataset order, nothing merged or dropped; a field is
    written verbatim unless it holds a comma, a double quote or a
    character of the line terminator of the platform (LF, and on Windows
    CR as well), and then it stands between double quotes with its double
    quotes doubled.  When no string field of the dataset holds such a
    character every record is the five values verbatim.  When the widget
    raises, the run dies there and no file is offered. *)
Theorem csv_export data log :
  data <> [] ->
  (st_dataframe_error (DataFrame_of data) = None ->
   show data log =
   (Ok tt,
    log ++ [ st_success (length data);
             st_dataframe (DataFrame_of data);
             AsSpecified.download (AsSpecified.csv_text os data) ]))
  /\ (forall e, st_dataframe_error (DataFrame_of data) = Some e ->
       show data log = (Raise e, log ++ [ st_success (length data) ]))
  /\ ((forall r, In r data ->
          AsSpecified.plain os (Site r) && AsSpecified.plain os (Year_Month r)
          && AsSpecified.plain os (Regex r) = true) ->
       AsSpecified.csv_text os data = AsSpecified.verbatim_text os data).
Proof.
  intros Hdata. pose proof (show_dataset data Hdata) as Hshow.
  split; [|split].
  - intros Hnone. rewrite Hnone in Hshow. destruct Hshow as [Hres Hlog].
    rewrite show_run, Hres, Hlog, to_csv_text. reflexivity.
  - intros e Hsome. rewrite Hsome in Hshow. destruct Hshow as [Hres Hlog].
    now rewrite show_run, Hres, Hlog.
  - intros Hplain. unfold AsSpecified.csv_text, AsSpecified.verbatim_text.
    do 2 f_equal. clear Hdata Hshow.
    induction data as [|r rest IH]; [reflexivity|].
    cbn [map concat_str]. rewrite IH by (intros r' Hr'; apply Hplain; now right).
    do 2 f_equal.
    specialize (Hplain r (or_introl eq_refl)).
    apply andb_true_iff in Hplain. destruct Hplain as [Hplain Hregex].
    apply andb_true_iff in Hplain. destruct Hplain as [Hsite Hym].
    unfold AsSpecified.csv_line, AsSpecified.verbatim_line, AsSpecified.fields_of.
    cbn [map]. unfold AsSpecified.csv_field.
    now rewrite Hsite, Hym, Hregex, !plain_str_of_int.
Qed.


(** C10 (as amended): no guard stands before the indexing.  A row with at
    least two dimension values and two metric values is flattened
    whenever its first two metric values are integer literals; a row
    with fewer of either is not flattened (IndexError when a dimension
    value is missing), and a response holding such a row makes the whole
    call fail. *)
Theorem flatten_row_guard client property_id site_name regex
    start_date end_date row :
  (2 <= length (dimension_values row) ->
   2 <= length (metric_values row) ->
   (forall m, In m (firstn 2 (metric_values row)) ->
              is_ok (PyStr.int (metric_value m)) = true) ->
   is_ok (flatten_row site_name regex row) = true)
  /\ (length (dimension_values row) < 2 ->
      flatten_row site_name regex row = Raise IndexError)
  /\ (length (metric_values row) < 2 ->
      is_ok (flatten_row site_name regex row) = false)
  /\ (forall response,
        run_report client (build_request property_id regex start_date end_date)
        = Ok response ->
        In row (rows response) ->
        length (dimension_values row) < 2 \/ length (metric_values row) < 2 ->
        is_ok (fetched client property_id site_name regex start_date end_date)
        = false).
Proof.
  assert (Hnarrow : length (metric_values row) < 2 ->
                    is_ok (flatten_row site_name regex row) = false).
  { intros Hm. destruct (flatten_row site_name regex row) as [r|e] eqn:Hf;
      [|reflexivity].
    apply flatten_row_ok in Hf.
    destruct Hf as (d0 & d1 & drest & m0 & m1 & mrest & tu & pv & _ & Hmv & _).
    rewrite Hmv in Hm. simpl in Hm. lia. }
  split; [|split; [|split]].
  - intros Hd Hm Hint.
    destruct row as [[|d0 [|d1 drest]] [|m0 [|m1 mrest]]];
      cbn [dimension_values metric_values length] in *; try lia.
    destruct (PyStr.int (metric_value m0)) as [tu|e] eqn:H0.
    2:{ specialize (Hint m0 (or_introl eq_refl)). rewrite H0 in Hint. discriminate. }
    destruct (PyStr.int (metric_value m1)) as [pv|e] eqn:H1.
    2:{ specialize (Hint m1 (or_intror (or_introl eq_refl))).
        rewrite H1 in Hint. discriminate. }
    assert (Hok : exists r, flatten_row site_name regex
                    {| dimension_values := d0 :: d1 :: drest;
                       metric_values := m0 :: m1 :: mrest |} = Ok r).
    { eexists. apply flatten_row_ok.
      exists d0, d1, drest, m0, m1, mrest, tu, pv. repeat split; eassumption. }
    destruct Hok as (r & ->). reflexivity.
  - apply flatten_row_narrow_dimensions.
  - exact Hnarrow.
  - intros response Hresp Hin Hshort. rewrite fetched_eq, Hresp. cbn [bindR].
    assert (Hrow : exists e, flatten_row site_name regex row = Raise e).
    { destruct Hshort as [Hd|Hm].
      - exists IndexError. now apply flatten_row_narrow_dimensions.
      - specialize (Hnarrow Hm).
        destruct (flatten_row site_name regex row) as [r|e]; [discriminate|].
        now exists e. }
    destruct Hrow as (e & He).
    destruct (traverse_raise _ _ _ _ Hin He) as (e' & ->). reflexivity.
Qed.

End RunFacts.

(** *** Two runs of the same form *)

Section TwoRuns.

Variables Client1 Client2 : Type.
Variable new_client1 : list byte -> result Client1.
Variable new_client2 : list byte -> result Client2.
Variable run_report1 : Client1 -> RunReportRequest -> result RunReportResponse.
Variable run_report2 : Client2 -> RunReportRequest -> result RunReportResponse.
Variable os : os_name.
Variable st_dataframe_error : DataFrame -> option exn.

Lemma for_regex_agree client1 client2 property_id site_name start_date end_date
    regex_list final_data log :
  (forall regex, In regex regex_list ->
     run_report1 client1 (build_request property_id regex start_date end_date) =
     run_report2 client2 (build_request property_id regex start_date end_date)) ->
  App.for_regex Client1 run_report1 client1 property_id site_name
    start_date end_date regex_list final_data log =
  App.for_regex Client2 run_report2 client2 property_id site_name
    start_date end_date regex_list final_data log.
Proof.
  revert final_data log.
  induction regex_list as [|regex rest IH]; intros final_data log Hsame;
    [reflexivity|].
  cbn [App.for_regex]. unfold bind. rewrite !fetch_ga4_data_run.
  unfold App.fetched, App.fetch_ga4_data, client_run_report, bind, emit, lift.
  cbn [fst snd app].
  rewrite (Hsame regex (or_introl eq_refl)).
  destruct (run_report2 client2 _) as [response|e]; cbn [fst]; [|reflexivity].
  destruct (flatten_rows site_name regex (rows response) []); [|reflexivity].
  apply IH. intros regex' Hin. apply Hsame. now right.
Qed.

Lemma for_property_agree client1 client2 start_date end_date regex_list sites
    final_data log :
  (forall pair, In pair (list_prod sites regex_list) ->
     run_report1 client1 (request_of start_date end_date pair) =
     run_report2 client2 (request_of start_date end_date pair)) ->
  App.for_property Client1 run_report1 client1 start_date end_date regex_list
    sites final_data log =
  App.for_property Client2 run_report2 client2 start_date end_date regex_list
    sites final_data log.
Proof.
  revert final_data log.
  induction sites as [|property_id rest IH]; intros final_data log Hsame;
    [reflexivity|].
  cbn [App.for_property]. unfold bind, lift.
  destruct (dict_getitem view_id_name_mapping property_id) as [site_name|e];
    [|reflexivity].
  rewrite (for_regex_agree client1 client2).
  2:{ intros regex Hin.
      apply (Hsame (property_id, regex)). apply in_prod_iff. split; [now left|exact Hin]. }
  destruct (App.for_regex Client2 run_report2 client2 property_id site_name
              start_date end_date regex_list final_data log) as [[d|e] log'];
    [|reflexivity].
  apply IH. intros [p r] Hin. apply Hsame.
  apply in_prod_iff in Hin. apply in_prod_iff. destruct Hin. split; [now right|assumption].
Qed.

(** C9: two runs on the same form values, whose clients are built from
    the same upload and whose services give the same answer to every
    request of the matrix, end the same way and show the same things:
    the same messages, the same table and a download of the same bytes
    under the same name. *)
Theorem rerun_identical inp credentials client1 client2 log :
  cred_file inp = Some credentials ->
  new_client1 credentials = Ok client1 ->
  new_client2 credentials = Ok client2 ->
  (forall pair, In pair (matrix inp) ->
     run_report1 client1 (request_of (start_date inp) (end_date inp) pair) =
     run_report2 client2 (request_of (start_date inp) (end_date inp) pair)) ->
  App.main Client1 new_client1 run_report1 os st_dataframe_error inp log =
  App.main Client2 new_client2 run_report2 os st_dataframe_error inp log.
Proof.
  intros Hcred Hclient1 Hclient2 Hsame. unfold App.main.
  destruct (fetch_btn inp); [|reflexivity].
  rewrite Hcred.
  destruct (selected_sites inp) as [|p ps] eqn:Hsites; [reflexivity|].
  destruct (PyStr.is_empty (PyStr.strip (regex_input inp))); [reflexivity|].
  unfold App.fetch_and_show, with_spinner, bind, lift, emit.
  rewrite Hclient1, Hclient2. cbn [fst snd]. rewrite Hsites.
  rewrite (for_property_agree client1 client2).
  2:{ unfold matrix in Hsame. rewrite Hsites in Hsame. exact Hsame. }
  reflexivity.
Qed.

End TwoRuns.

(** The worked example of the specification, and the two months of its
    padding example. *)
Example flatten_august :
  flatten_row "DNA English" Demo.mp_regex Demo.august_row =
  Ok (Demo.august_record "DNA English" Demo.mp_regex).
Proof. reflexivity. Qed.

Example year_month_march :
  option_map Year_Month
    (match flatten_row "DNA English" Demo.mp_regex
             (Demo.response_row "2024" "3" "1" "2") with
     | Ok r => Some r
     | Raise _ => None
     end) = Some "2024-03".
Proof. reflexivity. Qed.

Example year_month_november :
  option_map Year_Month
    (match flatten_row "DNA English" Demo.mp_regex
             (Demo.response_row "2024" "11" "1" "2") with
     | Ok r => Some r
     | Raise _ => None
     end) = Some "2024-11".
Proof. reflexivity. Qed.

Example flatten_narrow :
  flatten_row "DNA English" Demo.mp_regex Demo.narrow_row = Raise IndexError.
Proof. reflexivity. Qed.

(** The run of the worked example, from the press of the button to the
    download. *)
Example main_example_form :
  App.main unit Demo.new_client Demo.run_report posix
    Demo.st_dataframe_error Demo.example_form [] =
  (Ok tt,
   [ spinner_enter;
     client_created [];
     run_report_sent
       (build_request "424738282" Demo.mp_regex Demo.august_1 Demo.august_31);
     st_success 1;
     st_dataframe (DataFrame_of [Demo.august_record "DNA English" Demo.mp_regex]);
     AsSpecified.download
       ("Site,Year_Month,Total_Users,Pageviews,Regex" ++ String LF
        ("DNA English,2024-08,150,300,.*(/mp/).*" ++ String LF EmptyString));
     spinner_exit ]).
Proof. reflexivity. Qed.



(** C2, on the row of the worked example. *)
Lemma year_month_zfill_august :
  exists d0 d1 rest,
    dimension_values Demo.august_row = d0 :: d1 :: rest
    /\ Year_Month (Demo.august_record "DNA English" Demo.mp_regex) =
       (dimension_value d0 ++ "-"
        ++ AsSpecified.month_field (dimension_value d1))%string.
Proof.
  exact (year_month_zfill "DNA English" Demo.mp_regex Demo.august_row
           (Demo.august_record "DNA English" Demo.mp_regex) eq_refl).
Defined.

(** C2 as worded fails on a month that is a lone minus sign: the row is
    flattened to "2024--0", where left padding would give "2024-0-". *)
Lemma lone_sign_month_not_left_padded :
  exists r,
    flatten_row "DNA English" Demo.mp_regex Demo.sign_month_row = Ok r
    /\ Year_Month r = "2024--0"
    /\ ~ AsSpecified.year_month_left_padded Demo.sign_month_row r.
Proof.
  eexists. split; [reflexivity|]. split; [reflexivity|].
  intros H. specialize (H _ _ _ eq_refl). discriminate H.
Qed.

(** C10 as worded fails on a row with two dimension values and two
    metric values whose total is no number. *)
Lemma wide_row_not_flattened :
  ~ AsSpecified.flattens_when_wide "DNA English" Demo.mp_regex Demo.malformed_row.
Proof.
  intros H. unfold AsSpecified.flattens_when_wide in H.
  assert (Hd : 2 <= length (dimension_values Demo.malformed_row)) by (simpl; lia).
  assert (Hm : 2 <= length (metric_values Demo.malformed_row)) by (simpl; lia).
  specialize (H Hd Hm). discriminate H.
Qed.

(** C10, on the row of the worked example. *)
Lemma flatten_row_guard_august :
  is_ok (flatten_row "DNA English" Demo.mp_regex Demo.august_row) = true.
Proof.
  apply (proj1 (flatten_row_guard unit Demo.run_report tt "424738282"
                  "DNA English" Demo.mp_regex Demo.august_1 Demo.august_31
                  Demo.august_row)).
  - simpl. lia.
  - simpl. lia.
  - intros m Hm. simpl in Hm. destruct Hm as [<-|[<-|[]]]; reflexivity.
Defined.

(** C3, on two properties and two regexes: the records come out in the
    order P1 R1, P1 R2, P2 R1, P2 R2. *)
Lemma final_data_two_by_two :
  App.for_property unit Demo.run_report tt Demo.august_1 Demo.august_31
    [Demo.mp_regex; Demo.politics_regex] ["424738282"; "424752920"] [] [] =
  (Ok (concat [ [Demo.august_record "DNA English" Demo.mp_regex];
                [Demo.august_record "DNA English" Demo.politics_regex];
                [Demo.august_record "DNA Hindi" Demo.mp_regex];
                [Demo.august_record "DNA Hindi" Demo.politics_regex] ]),
   [] ++ map (fun pair => run_report_sent
                            (request_of Demo.august_1 Demo.august_31 pair))
           (list_prod ["424738282"; "424752920"]
              [Demo.mp_regex; Demo.politics_regex])).
Proof.
  apply (proj1 (final_data_traversal_order unit Demo.run_report tt
                  Demo.august_1 Demo.august_31
                  [Demo.mp_regex; Demo.politics_regex]
                  ["424738282"; "424752920"] [])).
  - reflexivity.
  - repeat constructor.
Defined.

(** C4, on the form with nothing filled in: the one message is the one
    about the credentials. *)
Lemma validation_gate_blank_form :
  App.main unit Demo.new_client Demo.run_report posix
    Demo.st_dataframe_error Demo.blank_form [] =
  (Ok tt, [] ++ [st_error Upload_GA4_Service_Account_JSON])
  /\ List.filter is_network_event
       (snd (App.main unit Demo.new_client Demo.run_report posix
               Demo.st_dataframe_error Demo.blank_form []))
     = List.filter is_network_event [].
Proof.
  exact (validation_gate unit Demo.new_client Demo.run_report posix
           Demo.st_dataframe_error Demo.blank_form []
           Upload_GA4_Service_Account_JSON eq_refl eq_refl).
Defined.

(** C5 as worded fails on a regex with a comma in it: the record of the
    file has the regex between double quotes, so the file is not the
    verbatim text. *)
Lemma comma_regex_not_verbatim :
  ~ AsSpecified.exported_verbatim posix Demo.st_dataframe_error
      [Demo.comma_record].
Proof.
  unfold AsSpecified.exported_verbatim.
  intros [H|[H|[H|[]]]]; discriminate H.
Qed.

(** C5, on the record of the worked example: the widget of the example
    displays it, the file is offered, and its text is the verbatim one. *)
Lemma csv_export_august :
  App.show posix Demo.st_dataframe_error
    [Demo.august_record "DNA English" Demo.mp_regex] [] =
  (Ok tt,
   [] ++ [ st_success (length [Demo.august_record "DNA English" Demo.mp_regex]);
           st_dataframe
             (DataFrame_of [Demo.august_record "DNA English" Demo.mp_regex]);
           AsSpecified.download
             (AsSpecified.csv_text posix
                [Demo.august_record "DNA English" Demo.mp_regex]) ])
  /\ AsSpecified.csv_text posix [Demo.august_record "DNA English" Demo.mp_regex]
     = AsSpecified.verbatim_text posix
         [Demo.august_record "DNA English" Demo.mp_regex].
Proof.
  assert (Hdata : [Demo.august_record "DNA English" Demo.mp_regex] <> [])
    by discriminate.
  destruct (csv_export posix Demo.st_dataframe_error
              [Demo.august_record "DNA English" Demo.mp_regex] [] Hdata)
    as (Hshow & _ & Hverbatim).
  split.
  - apply Hshow. reflexivity.
  - apply Hverbatim. intros r [<-|[]]. reflexivity.
Defined.

(** The two branches of the export on concrete datasets: the worked
    example is displayed and offered; a total of 2^64 makes the widget of
    the example raise after the count, and nothing is offered. *)
Example show_august :
  App.show posix Demo.st_dataframe_error
    [Demo.august_record "DNA English" Demo.mp_regex] [] =
  (Ok tt,
   [ st_success 1;
     st_dataframe (DataFrame_of [Demo.august_record "DNA English" Demo.mp_regex]);
     AsSpecified.download
       ("Site,Year_Month,Total_Users,Pageviews,Regex" ++ String LF
        ("DNA English,2024-08,150,300,.*(/mp/).*" ++ String LF EmptyString)) ]).
Proof. reflexivity. Qed.

Example main_beyond_64_bits :
  App.main unit Demo.new_client Demo.run_report_beyond_64_bits posix
    Demo.st_dataframe_error Demo.example_form [] =
  (Raise (ExternalError "OverflowError"),
   [ spinner_enter;
     client_created [];
     run_report_sent
       (build_request "424738282" Demo.mp_regex Demo.august_1 Demo.august_31);
     st_success 1;
     spinner_exit ]).
Proof. reflexivity. Qed.

(** A carriage return alone is written as it is under LF and between
    quotes under CR LF. *)
Example csv_text_carriage_return_posix :
  AsSpecified.csv_text posix [Demo.carriage_return_record] =
  ("Site,Year_Month,Total_Users,Pageviews,Regex" ++ String LF
   ("DNA English,2024-08,150,300,a" ++ String CR ("b" ++ String LF EmptyString)))%string
  /\ to_csv (linesep posix) (DataFrame_of [Demo.carriage_return_record]) =
     AsSpecified.verbatim_text posix [Demo.carriage_return_record].
Proof. split; reflexivity. Qed.

Example csv_text_carriage_return_nt :
  to_csv (linesep nt) (DataFrame_of [Demo.carriage_return_record]) =
  ("Site,Year_Month,Total_Users,Pageviews,Regex" ++ String CR (String LF
   ("DNA English,2024-08,150,300," ++ String quotechar
    ("a" ++ String CR ("b" ++ String quotechar (String CR (String LF EmptyString)))))))%string.
Proof. reflexivity. Qed.

Example csv_text_august :
  AsSpecified.csv_text posix [Demo.august_record "DNA English" Demo.mp_regex] =
  ("Site,Year_Month,Total_Users,Pageviews,Regex" ++ String LF
   ("DNA English,2024-08,150,300,.*(/mp/).*" ++ String LF EmptyString))%string.
Proof. reflexivity. Qed.

Example csv_text_comma :
  AsSpecified.csv_text posix [Demo.comma_record] =
  ("Site,Year_Month,Total_Users,Pageviews,Regex" ++ String LF
   ("DNA English,2024-08,150,300," ++ String quotechar
    (".*/a{1,2}/.*" ++ String quotechar (String LF EmptyString))))%string.
Proof. reflexivity. Qed.

(** A total with a sign between its digits is no integer literal, and the
    row that holds it is not flattened. *)
Example sign_inside_not_literal :
  (forall z, ~ AsSpecified.integer_literal "1-2" z)
  /\ flatten_row "DNA English" Demo.mp_regex
       (Demo.response_row "2024" "8" "1-2" "300")
     = Raise (ValueError "1-2").
Proof.
  split; [|reflexivity].
  intros z H. apply PyStrFacts.int_integer_literal in H. discriminate H.
Qed.

Example underscore_literal : AsSpecified.integer_literal " 1_000 " 1000.
Proof. now apply PyStrFacts.int_integer_literal. Qed.

Lemma form_started : started Demo.form [].
Proof.
  repeat split; discriminate.
Qed.


Example malformed_metric_value_error :
  fst (App.main unit Demo.new_client Demo.run_report_malformed posix
    Demo.st_dataframe_error Demo.form [])
  = Raise (ValueError "n/a").
Proof. reflexivity. Qed.

(** C7, on a service with nothing to report. *)
Lemma no_data_condition_form :
  App.main unit Demo.new_client Demo.run_report_empty posix
    Demo.st_dataframe_error Demo.form [] =
  (Ok tt,
   [] ++ [spinner_enter; client_created []]
   ++ map (fun pair => run_report_sent
                         (request_of (start_date Demo.form) (end_date Demo.form) pair))
        (matrix Demo.form)
   ++ [st_warning_no_data; spinner_exit]).
Proof.
  apply (proj1 (no_data_condition unit Demo.new_client Demo.run_report_empty
                  posix Demo.st_dataframe_error Demo.form [] tt []
                  form_started eq_refl)).
  - reflexivity.
  - intros pair _. eexists. split; reflexivity.
Defined.

(** C8, on the last record of the two-by-two run. *)
Lemma row_provenance_two_by_two :
  exists property_id regex response response_row,
    In property_id ["424738282"; "424752920"]
    /\ In regex [Demo.mp_regex; Demo.politics_regex]
    /\ Demo.run_report tt
         (build_request property_id regex Demo.august_1 Demo.august_31)
       = Ok response
    /\ In response_row (rows response)
    /\ flatten_row (Site (Demo.august_record "DNA Hindi" Demo.politics_regex))
         regex response_row
       = Ok (Demo.august_record "DNA Hindi" Demo.politics_regex)
    /\ Regex (Demo.august_record "DNA Hindi" Demo.politics_regex) = regex
    /\ dict_getitem view_id_name_mapping property_id
       = Ok (Site (Demo.august_record "DNA Hindi" Demo.politics_regex)).
Proof.
  eapply (row_provenance unit Demo.run_report tt Demo.august_1 Demo.august_31
            [Demo.mp_regex; Demo.politics_regex] ["424738282"; "424752920"] []).
  - reflexivity.
  - right. right. right. left. reflexivity.
Defined.

(** C9, on two services that differ only on a property outside the
    matrix. *)
Lemma rerun_identical_form :
  App.main unit Demo.new_client Demo.run_report posix
    Demo.st_dataframe_error Demo.form [] =
  App.main unit Demo.new_client Demo.run_report_elsewhere posix
    Demo.st_dataframe_error Demo.form [].
Proof.
  apply (rerun_identical unit unit Demo.new_client Demo.new_client
           Demo.run_report Demo.run_report_elsewhere posix
           Demo.st_dataframe_error Demo.form [] tt tt []).
  - reflexivity.
  - reflexivity.
  - reflexivity.
  - intros pair Hin.
    change (matrix Demo.form) with
      [ ("424738282", Demo.mp_regex); ("424738282", Demo.politics_regex);
        ("424752920", Demo.mp_regex); ("424752920", Demo.politics_regex) ] in Hin.
    destruct Hin as [<-|[<-|[<-|[<-|[]]]]]; reflexivity.
Defined.

End AppFacts.

(** ** The regex text and the list made of it *)

Module RegexTextFacts.

Import PyStr PyStrFacts App.

Lemma islinebreak_isspace c : islinebreak c = true -> isspace c = true.
Proof.
  destruct c as [[] [] [] [] [] [] [] []]; intros H;
    try reflexivity; discriminate H.
Qed.

(** One boundary: the line read so far is closed, and reading goes on
    after the boundary, which is CR LF or one character. *)
Lemma splitlines_from_boundary cur c r :
  islinebreak c = true ->
  exists r',
    splitlines_from cur (String c r) = cur :: splitlines_from EmptyString r'
    /\ (r' = r \/ (c = "013"%char /\ r = String "010"%char r')).
Proof.
  intros Hc. cbn [splitlines_from]. rewrite Hc.
  destruct (Ascii.eqb c "013") eqn:Hcr.
  - apply Ascii.eqb_eq in Hcr. subst c.
    destruct r as [|c2 r2]; [exists EmptyString; split; [reflexivity | now left]|].
    destruct (Ascii.eqb c2 "010") eqn:Hlf.
    + apply Ascii.eqb_eq in Hlf. subst c2. exists r2. split; [reflexivity|].
      right. split; reflexivity.
    + exists (String c2 r2). split; [|now left].
      destruct c2 as [[] [] [] [] [] [] [] []]; try reflexivity; discriminate.
  - exists r. split; [|now left].
    destruct c as [[] [] [] [] [] [] [] []]; try reflexivity; discriminate.
Qed.

Lemma splitlines_from_lf cur r :
  splitlines_from cur (String "010" r) = cur :: splitlines_from EmptyString r.
Proof. reflexivity. Qed.

Lemma splitlines_from_char cur c r :
  islinebreak c = false ->
  splitlines_from cur (String c r) = splitlines_from (cur ++ String c EmptyString) r.
Proof.
  intros Hc. cbn [splitlines_from]. now rewrite Hc.
Qed.

(** Induction on the text that follows the recursion of [splitlines_from]. *)
Lemma splitlines_from_rect (P : string -> string -> Prop) :
  (forall cur, P cur EmptyString) ->
  (forall cur c r, islinebreak c = false ->
     P (cur ++ String c EmptyString)%string r -> P cur (String c r)) ->
  (forall cur c r, islinebreak c = true ->
     (forall r', String.length r' <= String.length r -> P EmptyString r') ->
     P cur (String c r)) ->
  forall s cur, P cur s.
Proof.
  intros Hnil Hchar Hbreak s.
  assert (H : forall n s cur, String.length s <= n -> P cur s).
  { induction n as [|n IH]; intros s' cur Hlen.
    - destruct s'; [apply Hnil | simpl in Hlen; lia].
    - destruct s' as [|c r]; [apply Hnil|]. simpl in Hlen.
      destruct (islinebreak c) eqn:Hc.
      + apply Hbreak; [exact Hc|]. intros r' Hr'. apply IH. lia.
      + apply Hchar; [exact Hc|]. apply IH. lia. }
  intros cur. now apply (H (String.length s)).
Qed.

(** The characters of the lines are characters of the text. *)
Lemma splitlines_from_chars p s cur line :
  In line (splitlines_from cur s) ->
  any p line = true ->
  any p cur || any p s = true.
Proof.
  revert line. pattern cur, s. revert cur. revert s.
  apply splitlines_from_rect.
  - intros cur line. simpl. destruct (is_empty cur); intros [] Hp.
    + subst. now rewrite Hp.
    + contradiction.
  - intros cur c r Hc IH line Hin Hp. rewrite (splitlines_from_char _ _ _ Hc) in Hin.
    specialize (IH line Hin Hp). rewrite any_app in IH. simpl in *.
    rewrite orb_false_r in IH. now rewrite <- orb_assoc in IH.
  - intros cur c r Hc IH line Hin Hp.
    destruct (splitlines_from_boundary cur c r Hc) as (r' & Heq & Hr').
    rewrite Heq in Hin. destruct Hin as [<-|Hin]; [now rewrite Hp|].
    assert (Hlen : String.length r' <= String.length r).
    { destruct Hr' as [->|[_ ->]]; simpl; lia. }
    specialize (IH r' Hlen line Hin Hp). simpl in IH |- *.
    destruct Hr' as [->|[_ ->]]; simpl; rewrite IH;
      repeat rewrite orb_true_r; reflexivity.
Qed.

(** A character that is no boundary stays in some line. *)
Lemma splitlines_from_keeps p s cur :
  (forall c, p c = true -> islinebreak c = false) ->
  any p cur || any p s = true ->
  exists line, In line (splitlines_from cur s) /\ any p line = true.
Proof.
  intros Hp. pattern cur, s. revert cur. revert s.
  apply splitlines_from_rect.
  - intros cur H. simpl in *. rewrite orb_false_r in H.
    destruct cur; [discriminate|]. exists (String a cur). split; [now left|exact H].
  - intros cur c r Hc IH H. rewrite (splitlines_from_char _ _ _ Hc).
    apply IH. rewrite any_app. simpl in *. rewrite orb_false_r.
    now rewrite <- orb_assoc.
  - intros cur c r Hc IH H.
    destruct (splitlines_from_boundary cur c r Hc) as (r' & Heq & Hr').
    rewrite Heq.
    destruct (any p cur) eqn:Hcur.
    { exists cur. split; [now left | exact Hcur]. }
    simpl in H.
    assert (Hpc : p c = false).
    { destruct (p c) eqn:E; [|reflexivity]. apply Hp in E. congruence. }
    rewrite Hpc in H. simpl in H.
    assert (Hr : any p r' = true).
    { destruct Hr' as [->|[_ ->]]; [exact H|].
      simpl in H. apply orb_true_iff in H. destruct H as [H|H]; [|exact H].
      apply Hp in H. discriminate. }
    assert (Hlen : String.length r' <= String.length r).
    { destruct Hr' as [->|[_ ->]]; simpl; lia. }
    destruct (IH r' Hlen) as (line & Hin & Hline); [simpl; exact Hr|].
    exists line. split; [now right | exact Hline].
Qed.

(** No line holds a boundary character. *)
Lemma splitlines_from_no_boundary s cur line :
  any islinebreak cur = false ->
  In line (splitlines_from cur s) ->
  any islinebreak line = false.
Proof.
  revert line. pattern cur, s. revert cur. revert s.
  apply splitlines_from_rect.
  - intros cur line Hcur. simpl. destruct (is_empty cur); intros []; now subst.
  - intros cur c r Hc IH line Hcur Hin.
    rewrite (splitlines_from_char _ _ _ Hc) in Hin.
    apply IH; [|exact Hin]. rewrite any_app, Hcur. simpl. now rewrite Hc.
  - intros cur c r Hc IH line Hcur Hin.
    destruct (splitlines_from_boundary cur c r Hc) as (r' & Heq & Hr').
    rewrite Heq in Hin. destruct Hin as [<-|Hin]; [exact Hcur|].
    assert (Hlen : String.length r' <= String.length r).
    { destruct Hr' as [->|[_ ->]]; simpl; lia. }
    now apply (IH r' Hlen).
Qed.

Lemma lstrip_nonspace c r : isspace c = false -> lstrip (String c r) = String c r.
Proof. intros H. simpl. now rewrite H. Qed.

Lemma rstrip_idempotent s : rstrip (rstrip s) = rstrip s.
Proof.
  induction s as [|c s IH]; [reflexivity|]. cbn [rstrip].
  destruct (isspace c && is_empty (rstrip s)) eqn:E; [reflexivity|].
  cbn [rstrip]. now rewrite IH, E.
Qed.

Lemma rstrip_nonspace c r :
  isspace c = false -> rstrip (String c r) = String c (rstrip r).
Proof. intros H. cbn [rstrip]. now rewrite H. Qed.

Lemma strip_idempotent s : strip (strip s) = strip s.
Proof.
  unfold strip. destruct (lstrip s) as [|c r] eqn:Hl; [reflexivity|].
  apply lstrip_head in Hl.
  rewrite (rstrip_nonspace _ _ Hl), (lstrip_nonspace _ _ Hl),
    (rstrip_nonspace _ _ Hl).
  now rewrite rstrip_idempotent.
Qed.

Lemma filter_none {A : Type} (f : A -> bool) l :
  (forall x, In x l -> f x = false) -> List.filter f l = [].
Proof.
  induction l as [|x l IH]; intros H; [reflexivity|]. simpl.
  rewrite (H x (or_introl eq_refl)). apply IH. intros y Hy. apply H. now right.
Qed.

Lemma nonspace_not_boundary c : negb (isspace c) = true -> islinebreak c = false.
Proof.
  intros H. destruct (islinebreak c) eqn:E; [|reflexivity].
  apply islinebreak_isspace in E. rewrite E in H. discriminate.
Qed.

(** X1: every regex of the list is a line of the text with the blanks
    around it removed: it is not empty, stripping it again changes
    nothing, and it holds no line boundary. *)
Theorem regex_list_clean text regex :
  In regex (regex_list_of text) ->
  regex <> EmptyString
  /\ strip regex = regex
  /\ any islinebreak regex = false.
Proof.
  unfold regex_list_of. intros Hin. apply in_map_iff in Hin.
  destruct Hin as (line & <- & Hline). apply filter_In in Hline.
  destruct Hline as [Hline Hkeep]. split; [|split].
  - intros Hempty. rewrite Hempty in Hkeep. discriminate.
  - apply strip_idempotent.
  - destruct (any islinebreak (strip line)) eqn:E; [|reflexivity].
    apply any_strip_le in E.
    rewrite (splitlines_from_no_boundary text EmptyString line eq_refl Hline) in E.
    discriminate.
Qed.

(** X2: the list of regexes is empty exactly when the gate finds the
    text blank; so a run that passes the gate has a matrix with at least
    one pair. *)
Theorem regex_list_empty_iff_blank text :
  (regex_list_of text = [] <-> is_empty (strip text) = true)
  /\ (forall inp credentials,
        regex_input inp = text -> started inp credentials -> matrix inp <> []).
Proof.
  assert (Hiff : regex_list_of text = [] <-> is_empty (strip text) = true).
  { rewrite strip_is_empty. unfold regex_list_of. split.
    - intros Hnil.
      destruct (any (fun c => negb (isspace c)) text) eqn:Htext; [|reflexivity].
      exfalso.
      destruct (splitlines_from_keeps (fun c => negb (isspace c)) text EmptyString
                  nonspace_not_boundary) as (line & Hin & Hline).
      { simpl. exact Htext. }
      assert (Hkeep : In line (List.filter
                                 (fun r => negb (is_empty (strip r)))
                                 (splitlines text))).
      { apply filter_In. split; [exact Hin|].
        now rewrite strip_is_empty, Hline. }
      apply (in_map strip) in Hkeep. rewrite Hnil in Hkeep. destruct Hkeep.
    - intros Hblank. apply negb_true_iff in Hblank.
      rewrite filter_none; [reflexivity|].
      intros line Hin. rewrite strip_is_empty.
      destruct (any (fun c => negb (isspace c)) line) eqn:Hline; [|reflexivity].
      pose proof (splitlines_from_chars _ _ _ _ Hin Hline) as H.
      simpl in H. congruence. }
  split; [exact Hiff|].
  intros inp credentials Htext (_ & _ & Hsites & Hregex). unfold matrix.
  rewrite Htext in *.
  destruct (regex_list_of text) as [|regex rest] eqn:Hlist.
  - exfalso. apply Hregex. destruct Hiff as [Hiff _]. specialize (Hiff eq_refl).
    now destruct (strip text).
  - destruct (selected_sites inp) as [|p ps]; [contradiction|]. discriminate.
Qed.

Lemma append_empty_r s : (s ++ EmptyString)%string = s.
Proof. induction s as [|c s IH]; simpl; [reflexivity | now rewrite IH]. Qed.

Lemma splitlines_from_line cur line rest :
  any islinebreak line = false ->
  splitlines_from cur (line ++ rest) = splitlines_from (cur ++ line) rest.
Proof.
  revert cur. induction line as [|c line IH]; intros cur Hline;
    cbn [append any] in *.
  - now rewrite append_empty_r.
  - apply orb_false_iff in Hline. destruct Hline as [Hc Hline].
    rewrite (splitlines_from_char _ _ _ Hc), (IH _ Hline), append_assoc.
    reflexivity.
Qed.

(** X3: when the text is a sequence of lines joined by line feeds, the
    list of regexes is those lines in their order, each stripped, without
    the blank ones and with repetitions kept. *)
Theorem one_regex_per_line lines :
  (forall line, In line lines -> any islinebreak line = false) ->
  regex_list_of (join (String "010" EmptyString) lines) =
  map strip (List.filter (fun r => negb (is_empty (strip r))) lines).
Proof.
  intros Hlines. unfold regex_list_of. f_equal.
  induction lines as [|line rest IH]; [reflexivity|].
  assert (Hline : any islinebreak line = false) by (apply Hlines; now left).
  assert (Hrest : forall l, In l rest -> any islinebreak l = false)
    by (intros l Hl; apply Hlines; now right).
  specialize (IH Hrest).
  destruct rest as [|line2 rest'].
  - cbn [join]. unfold splitlines.
    rewrite <- (append_empty_r line) at 1.
    rewrite (splitlines_from_line _ _ _ Hline). cbn [append splitlines_from].
    destruct line; reflexivity.
  - change (join (String "010" EmptyString) (line :: line2 :: rest'))
      with (line ++ String "010"
                      (join (String "010" EmptyString) (line2 :: rest')))%string.
    unfold splitlines in *.
    rewrite (splitlines_from_line _ _ _ Hline). cbn [append].
    rewrite splitlines_from_lf.
    cbn [List.filter]. now rewrite IH.
Qed.

(** X1 on the first regex of the two-line text. *)
Lemma regex_list_clean_mp :
  Demo.mp_regex <> EmptyString
  /\ strip Demo.mp_regex = Demo.mp_regex
  /\ any islinebreak Demo.mp_regex = false.
Proof.
  apply (regex_list_clean Demo.two_lines). left. reflexivity.
Defined.

(** X3 on three typed lines. *)
Lemma one_regex_per_line_typed :
  regex_list_of (join (String "010" EmptyString) Demo.typed_lines) =
  map strip (List.filter (fun r => negb (is_empty (strip r))) Demo.typed_lines).
Proof.
  apply (one_regex_per_line Demo.typed_lines).
  intros line Hin. simpl in Hin.
  destruct Hin as [<-|[<-|[<-|[]]]]; reflexivity.
Defined.

Example regex_list_typed :
  regex_list_of (join (String "010" EmptyString) Demo.typed_lines) =
  [Demo.mp_regex; Demo.politics_regex].
Proof. reflexivity. Qed.

End RegexTextFacts.

(** ** How a run ends *)

Module RunEndFacts.

Import GA4 Pandas App ResultFacts AppFacts.

Lemma dict_getitem_raise d k e : dict_getitem d k = Raise e -> e = KeyError k.
Proof.
  induction d as [|[k' v] d IH]; cbn [dict_getitem].
  - intros H. now injection H.
  - destruct (String.eqb k k'); [discriminate | exact IH].
Qed.

Lemma dict_getitem_key d k : In k (map fst d) -> is_ok (dict_getitem d k) = true.
Proof.
  induction d as [|[k' v] d IH]; cbn [dict_getitem map fst]; [intros []|].
  intros [->|Hin].
  - now rewrite String.eqb_refl.
  - destruct (String.eqb k k'); [reflexivity | now apply IH].
Qed.

Lemma dict_getitem_entry d k v :
  NoDup (map fst d) -> In (k, v) d -> dict_getitem d k = Ok v.
Proof.
  induction d as [|[k' v'] d IH]; cbn [dict_getitem map fst]; [intros _ []|].
  intros Hnodup Hin. inversion Hnodup as [|? ? Hfresh Hrest]; subst.
  destruct Hin as [Heq|Hin].
  - injection Heq as -> ->. now rewrite String.eqb_refl.
  - destruct (String.eqb k k') eqn:E; [|now apply IH].
    apply String.eqb_eq in E. subst k'. exfalso. apply Hfresh.
    apply in_map_iff. now exists (k, v).
Qed.

(** X7: a selection made of the options of the selector is in the
    directory: the label function and the lookup of the loop succeed on
    each id, and the lookup gives the name the directory pairs with it. *)
Theorem selection_of_options sites :
  incl sites options ->
  forallb in_directory sites = true
  /\ (forall property_id, In property_id sites ->
        exists name,
          In (property_id, name) view_id_name_mapping
          /\ dict_getitem view_id_name_mapping property_id = Ok name
          /\ format_func property_id
             = Ok (name ++ " (" ++ property_id ++ ")")%string).
Proof.
  intros Hincl. split.
  - apply forallb_forall. intros p Hp. unfold in_directory.
    apply dict_getitem_key. now apply Hincl.
  - intros p Hp. apply Hincl in Hp. unfold options in Hp.
    apply in_map_iff in Hp. destruct Hp as ([k name] & Hk & Hentry).
    simpl in Hk. subst k. exists name.
    pose proof (dict_getitem_entry _ _ _ directory_keys_distinct Hentry) as Hget.
    split; [exact Hentry|]. split; [exact Hget|].
    unfold format_func. now rewrite Hget.
Qed.

#[local] Arguments dict_getitem : simpl never.

Section Ends.

Variable Client : Type.
Variable new_client : list byte -> result Client.
Variable run_report : Client -> RunReportRequest -> result RunReportResponse.
Variable os : os_name.
Variable st_dataframe_error : DataFrame -> option exn.

Local Abbreviation fetched := (App.fetched Client run_report).
Local Abbreviation for_regex := (App.for_regex Client run_report).
Local Abbreviation for_property := (App.for_property Client run_report).
Local Abbreviation call := (App.call Client run_report).
Local Abbreviation main :=
  (App.main Client new_client run_report os st_dataframe_error).

(** When the inner loop raises, the call that raised is the last one
    whose request was sent. *)
Lemma for_regex_raise client property_id site_name start_date end_date
    regex_list final_data log e :
  fst (for_regex client property_id site_name start_date end_date
         regex_list final_data log) = Raise e ->
  exists pre regex post,
    regex_list = pre ++ regex :: post
    /\ fetched client property_id site_name regex start_date end_date = Raise e
    /\ snd (for_regex client property_id site_name start_date end_date
              regex_list final_data log) =
       log ++ map (fun r => run_report_sent
                               (build_request property_id r start_date end_date))
                (pre ++ [regex]).
Proof.
  revert final_data log.
  induction regex_list as [|regex rest IH]; intros final_data log;
    cbn [App.for_regex]; [discriminate|].
  unfold bind. rewrite fetch_ga4_data_run.
  destruct (fetched client property_id site_name regex start_date end_date)
    as [rows|e'] eqn:Hcall.
  - intros Hraise. destruct (IH _ _ Hraise) as (pre & r & post & -> & Hr & Hlog).
    exists (regex :: pre), r, post. split; [reflexivity|]. split; [exact Hr|].
    rewrite Hlog, <- app_assoc. reflexivity.
  - cbn [fst snd]. intros Hraise. injection Hraise as ->.
    exists [], regex, rest. repeat split. exact Hcall.
Qed.

Lemma for_regex_ok_log client property_id site_name start_date end_date
    regex_list final_data log final_data' log' :
  for_regex client property_id site_name start_date end_date
    regex_list final_data log = (Ok final_data', log') ->
  log' = log ++ sent start_date end_date
                  (map (fun regex => (property_id, regex)) regex_list).
Proof.
  intros Hrun.
  destruct (for_regex_log Client run_report client property_id site_name
              start_date end_date regex_list final_data log) as (n & Hlog & Hok).
  rewrite Hrun in Hlog, Hok. cbn [fst snd is_ok] in *.
  rewrite (Hok eq_refl) in Hlog. unfold sent. now rewrite map_map.
Qed.

(** X4: when the loops raise, either a call of the matrix raised, and the
    requests sent are those of the matrix up to that call and no further;
    or a selected id is missing from the directory, the exception is the
    KeyError of that id, and the requests sent are those of the
    properties selected before it. *)
Theorem abort_point client start_date end_date regex_list sites final_data log e :
  fst (for_property client start_date end_date regex_list sites final_data log)
  = Raise e ->
  (exists pre pair post,
     list_prod sites regex_list = pre ++ pair :: post
     /\ call client start_date end_date pair = Raise e
     /\ snd (for_property client start_date end_date regex_list sites
               final_data log) =
        log ++ sent start_date end_date (pre ++ [pair]))
  \/ (exists known property_id rest,
        sites = known ++ property_id :: rest
        /\ e = KeyError property_id
        /\ in_directory property_id = false
        /\ snd (for_property client start_date end_date regex_list sites
                  final_data log) =
           log ++ sent start_date end_date (list_prod known regex_list)).
Proof.
  revert final_data log.
  induction sites as [|property_id rest IH]; intros final_data log;
    cbn [App.for_property]; [discriminate|].
  unfold bind, lift.
  destruct (dict_getitem view_id_name_mapping property_id) as [site_name|e']
    eqn:Hname.
  2:{ cbn [fst snd]. intros Hraise. injection Hraise as ->. right.
      exists [], property_id, rest. split; [reflexivity|].
      split; [now apply dict_getitem_raise in Hname|].
      split; [unfold in_directory; now rewrite Hname|].
      unfold sent. simpl. now rewrite app_nil_r. }
  destruct (for_regex client property_id site_name start_date end_date
              regex_list final_data log) as [[d|e'] log'] eqn:Hrun.
  - apply for_regex_ok_log in Hrun. subst log'. intros Hraise.
    destruct (IH _ _ Hraise) as
      [(pre & pair & post & Hprod & Hcall & Hlog)
      |(known & bad & rest' & -> & -> & Hbad & Hlog)].
    + left. exists (map (fun regex => (property_id, regex)) regex_list ++ pre),
        pair, post.
      split; [cbn [list_prod]; now rewrite Hprod, <- app_assoc|].
      split; [exact Hcall|].
      rewrite Hlog. unfold sent. rewrite !map_app.
      repeat rewrite <- app_assoc. reflexivity.
    + right. exists (property_id :: known), bad, rest'.
      split; [reflexivity|]. split; [reflexivity|]. split; [exact Hbad|].
      rewrite Hlog. unfold sent. cbn [list_prod]. rewrite !map_app.
      repeat rewrite <- app_assoc. reflexivity.
  - cbn [fst snd]. intros Hraise. injection Hraise as ->.
    pose proof (for_regex_raise client property_id site_name start_date end_date
                  regex_list final_data log e) as Hr.
    rewrite Hrun in Hr. cbn [fst snd] in Hr.
    destruct (Hr eq_refl) as (pre & regex & post & -> & Hcall & Hlog).
    left. exists (map (fun regex => (property_id, regex)) pre),
      (property_id, regex), (map (fun regex => (property_id, regex)) post
                             ++ list_prod rest (pre ++ regex :: post)).
    split; [cbn [list_prod]; now rewrite map_app, <- app_assoc|].
    split; [unfold App.call; cbn [fst snd]; now rewrite Hname|].
    rewrite Hlog. unfold sent.
    now rewrite !map_app, !map_map.
Qed.

Lemma for_property_app client start_date end_date regex_list sites more
    final_data log :
  for_property client start_date end_date regex_list (sites ++ more)
    final_data log =
  match for_property client start_date end_date regex_list sites final_data log with
  | (Ok final_data', log') =>
      for_property client start_date end_date regex_list more final_data' log'
  | (Raise e, log') => (Raise e, log')
  end.
Proof.
  revert final_data log.
  induction sites as [|property_id rest IH]; intros final_data log;
    cbn [app App.for_property]; [reflexivity|].
  unfold bind, lift.
  destruct (dict_getitem view_id_name_mapping property_id) as [site_name|e];
    [|reflexivity].
  destruct (for_regex client property_id site_name start_date end_date regex_list
              final_data log) as [[d|e] log']; [apply IH | reflexivity].
Qed.

(** X6: an id that the directory does not hold ends the loops with its
    KeyError when its turn comes: the calls for the properties before it
    are made, none for it or for those after it. *)
Theorem unknown_property_key_error client start_date end_date regex_list
    known property_id rest lists log :
  forallb in_directory known = true ->
  Forall2 (fun pair fetched_rows =>
             call client start_date end_date pair = Ok fetched_rows)
    (list_prod known regex_list) lists ->
  in_directory property_id = false ->
  for_property client start_date end_date regex_list
    (known ++ property_id :: rest) [] log =
  (Raise (KeyError property_id),
   log ++ sent start_date end_date (list_prod known regex_list)).
Proof.
  intros Hknown Hcalls Hbad. rewrite for_property_app.
  rewrite (for_property_complete Client run_report client start_date end_date
             regex_list known log lists Hknown Hcalls).
  cbn [App.for_property]. unfold bind, lift. unfold in_directory in Hbad.
  destruct (dict_getitem view_id_name_mapping property_id) as [name|e] eqn:Hname;
    [discriminate|].
  apply dict_getitem_raise in Hname. subst e. reflexivity.
Qed.

(** X5: when no client can be built from the upload, a run that passed
    the gate ends with the exception of the loader; the spinner is the
    only thing it showed, and nothing was sent. *)
Theorem refused_credentials inp credentials e log :
  started inp credentials ->
  new_client credentials = Raise e ->
  main inp log = (Raise e, log ++ [spinner_enter; spinner_exit]).
Proof.
  intros Hstart Hclient.
  rewrite (main_started Client new_client run_report os st_dataframe_error
             _ _ _ Hstart).
  now apply fetch_and_show_no_client.
Qed.

Lemma filter_sent p start_date end_date pairs :
  (forall request, p (run_report_sent request) = false) ->
  List.filter p (sent start_date end_date pairs) = [].
Proof.
  intros Hp. unfold sent. induction pairs as [|pair rest IH]; [reflexivity|].
  cbn [map List.filter]. now rewrite Hp.
Qed.

Lemma for_property_sent client start_date end_date regex_list sites final_data log :
  exists pairs,
    snd (for_property client start_date end_date regex_list sites final_data log)
    = log ++ sent start_date end_date pairs.
Proof.
  destruct (for_property_log Client run_report client start_date end_date
              regex_list sites final_data log) as (pairs & Hlog & _).
  now exists pairs.
Qed.

(** What [show] adds to the log, in every case. *)
Lemma shown_cases final_data :
  App.show_result os st_dataframe_error final_data = Ok tt
  /\ (final_data = []
      /\ App.shown os st_dataframe_error final_data = [st_warning_no_data]
      \/ exists csv,
           final_data <> []
           /\ st_dataframe_error (DataFrame_of final_data) = None
           /\ App.shown os st_dataframe_error final_data =
              [ st_success (length final_data);
                st_dataframe (DataFrame_of final_data);
                st_download_button csv "ga4_category_report.csv" "text/csv" ])
  \/ exists e,
       final_data <> []
       /\ st_dataframe_error (DataFrame_of final_data) = Some e
       /\ App.show_result os st_dataframe_error final_data = Raise e
       /\ App.shown os st_dataframe_error final_data =
          [ st_success (length final_data) ].
Proof.
  destruct final_data as [|r rest].
  { left. split; [reflexivity|]. left. split; reflexivity. }
  assert (Hdata : r :: rest <> []) by discriminate.
  pose proof (show_dataset os st_dataframe_error (r :: rest) Hdata) as Hshow.
  destruct (st_dataframe_error (DataFrame_of (r :: rest))) as [e|] eqn:Hwidget.
  - right. exists e. destruct Hshow as [Hres Hlog]. repeat split; assumption.
  - left. destruct Hshow as [Hres Hlog]. split; [exact Hres|].
    right. eexists. repeat split; [exact Hdata | exact Hlog].
Qed.

(** X8: a run tells the user how it ended at most once.  It does so
    exactly once when the button was pressed and the script ran to its end
    (one error, or the count of rows, or the no-data warning), and not at
    all when the button was not pressed.  A run that dies of an exception
    has told nothing, unless the exception is the one the table widget
    raised on the dataset: then the count of rows is the last thing shown
    before the spinner goes. *)
Theorem one_condition_per_run inp log :
  (is_ok (fst (main inp log)) = true ->
   length (List.filter is_condition_event (snd (main inp log))) =
   length (List.filter is_condition_event log)
   + (if fetch_btn inp then 1 else 0))
  /\ (forall e,
        fst (main inp log) = Raise e ->
        length (List.filter is_condition_event (snd (main inp log))) =
        length (List.filter is_condition_event log)
        \/ (length (List.filter is_condition_event (snd (main inp log))) =
            length (List.filter is_condition_event log) + 1
            /\ exists final_data before,
                 final_data <> []
                 /\ st_dataframe_error (DataFrame_of final_data) = Some e
                 /\ snd (main inp log) =
                    before ++ [st_success (length final_data); spinner_exit])).
Proof.
  assert (Hone : forall ev, is_condition_event ev = true ->
            length (List.filter is_condition_event (log ++ [ev])) =
            length (List.filter is_condition_event log) + 1).
  { intros ev Hev. rewrite filter_app, length_app. cbn [List.filter].
    now rewrite Hev. }
  unfold App.main. destruct (fetch_btn inp).
  2:{ cbn [ret fst snd]. split; [intros _; lia | intros e He; discriminate He]. }
  destruct (cred_file inp) as [credentials|];
    [|split; [intros _; now apply Hone | intros e He; discriminate He]].
  destruct (selected_sites inp) as [|p ps] eqn:Hsites;
    [split; [intros _; now apply Hone | intros e He; discriminate He]|].
  destruct (PyStr.is_empty (PyStr.strip (regex_input inp)));
    [split; [intros _; now apply Hone | intros e He; discriminate He]|].
  destruct (new_client credentials) as [client|e] eqn:Hclient.
  2:{ rewrite (fetch_and_show_no_client Client new_client run_report os
                 st_dataframe_error _ _ _ _ Hclient).
      cbn [fst snd is_ok]. split; [discriminate|]. intros e' _. left.
      rewrite filter_app, length_app. cbn. lia. }
  rewrite (fetch_and_show_run Client new_client run_report os
             st_dataframe_error _ _ _ _ Hclient).
  rewrite Hsites.
  destruct (for_property_sent client (start_date inp) (end_date inp)
              (regex_list_of (regex_input inp)) (p :: ps) []
              (log ++ [spinner_enter; client_created credentials]))
    as (pairs & Hlog).
  destruct (for_property client (start_date inp) (end_date inp)
              (regex_list_of (regex_input inp)) (p :: ps) []
              (log ++ [spinner_enter; client_created credentials]))
    as [[final_data|e] log'];
    cbn [fst snd is_ok] in *; subst log'.
  2:{ split; [discriminate|]. intros e' _. left.
      rewrite !filter_app, !length_app,
        (filter_sent is_condition_event) by reflexivity.
      cbn. lia. }
  destruct (shown_cases final_data)
    as [[Hres [[_ Hshown]|(csv & _ & _ & Hshown)]]
       |(e & Hdata & Hwidget & Hres & Hshown)];
    rewrite Hres, Hshown.
  - split; [|intros e He; discriminate He]. intros _.
    rewrite !filter_app, !length_app,
      (filter_sent is_condition_event) by reflexivity.
    cbn. lia.
  - split; [|intros e He; discriminate He]. intros _.
    rewrite !filter_app, !length_app,
      (filter_sent is_condition_event) by reflexivity.
    cbn. lia.
  - split; [discriminate|]. intros e' He'. injection He' as <-. right. split.
    + rewrite !filter_app, !length_app,
        (filter_sent is_condition_event) by reflexivity.
      cbn. lia.
    + exists final_data. eexists.
      split; [exact Hdata|]. split; [exact Hwidget|].
      cbn [app]. reflexivity.
Qed.

(** X9: a run that passed the gate shows the spinner first and removes
    it last, whether it returns or dies of an exception, and touches the
    spinner at no other moment. *)
Theorem spinner_always_exits inp credentials log :
  started inp credentials ->
  exists mid,
    snd (main inp log) = log ++ spinner_enter :: mid ++ [spinner_exit]
    /\ List.filter is_spinner_event mid = [].
Proof.
  intros Hstart.
  rewrite (main_started Client new_client run_report os st_dataframe_error
             _ _ _ Hstart).
  destruct (new_client credentials) as [client|e] eqn:Hclient.
  2:{ rewrite (fetch_and_show_no_client Client new_client run_report os
                 st_dataframe_error _ _ _ _ Hclient).
      exists []. split; reflexivity. }
  rewrite (fetch_and_show_run Client new_client run_report os
             st_dataframe_error _ _ _ _ Hclient).
  destruct (for_property_sent client (start_date inp) (end_date inp)
              (regex_list_of (regex_input inp)) (selected_sites inp) []
              (log ++ [spinner_enter; client_created credentials]))
    as (pairs & Hlog).
  destruct (for_property client (start_date inp) (end_date inp)
              (regex_list_of (regex_input inp)) (selected_sites inp) []
              (log ++ [spinner_enter; client_created credentials]))
    as [[final_data|e] log'];
    cbn [fst snd] in *; subst log'.
  - exists (client_created credentials
            :: sent (start_date inp) (end_date inp) pairs
            ++ App.shown os st_dataframe_error final_data).
    split;
      [repeat rewrite <- app_assoc; cbn [app]; repeat rewrite <- app_assoc;
       reflexivity|].
    cbn [List.filter is_spinner_event]. rewrite filter_app.
    rewrite (filter_sent is_spinner_event) by reflexivity.
    destruct (shown_cases final_data)
      as [[_ [[_ Hshown]|(csv & _ & _ & Hshown)]]|(e & _ & _ & _ & Hshown)];
      rewrite Hshown; reflexivity.
  - exists (client_created credentials
            :: sent (start_date inp) (end_date inp) pairs).
    split;
      [repeat rewrite <- app_assoc; cbn [app]; repeat rewrite <- app_assoc;
       reflexivity|].
    cbn [List.filter is_spinner_event].
    now rewrite (filter_sent is_spinner_event) by reflexivity.
Qed.

End Ends.

(** X7 on the first and the last option. *)
Lemma selection_of_options_two :
  forallb in_directory ["424738282"; "429575403"] = true
  /\ (forall property_id, In property_id ["424738282"; "429575403"] ->
        exists name,
          In (property_id, name) view_id_name_mapping
          /\ dict_getitem view_id_name_mapping property_id = Ok name
          /\ format_func property_id
             = Ok (name ++ " (" ++ property_id ++ ")")%string).
Proof.
  apply (selection_of_options ["424738282"; "429575403"]).
  intros p Hp. destruct Hp as [<-|[<-|[]]].
  - left. reflexivity.
  - apply in_map_iff. exists ("429575403", "Travel by India").
    split; [reflexivity|]. apply in_rev. left. reflexivity.
Defined.

Example format_func_first :
  format_func "424738282" = Ok "DNA English (424738282)".
Proof. reflexivity. Qed.

Example format_func_unknown :
  format_func "000000000" = Raise (KeyError "000000000").
Proof. reflexivity. Qed.

(** X4 on a service whose second row is malformed: the first call of the
    matrix raises and its request is the only one sent. *)
Lemma abort_point_malformed :
  (exists pre pair post,
     list_prod ["424738282"; "424752920"] [Demo.mp_regex; Demo.politics_regex]
     = pre ++ pair :: post
     /\ App.call unit Demo.run_report_malformed tt Demo.august_1 Demo.august_31 pair
        = Raise (ValueError "n/a")
     /\ snd (App.for_property unit Demo.run_report_malformed tt
               Demo.august_1 Demo.august_31
               [Demo.mp_regex; Demo.politics_regex]
               ["424738282"; "424752920"] [] []) =
        [] ++ sent Demo.august_1 Demo.august_31 (pre ++ [pair]))
  \/ (exists known property_id rest,
        ["424738282"; "424752920"] = known ++ property_id :: rest
        /\ ValueError "n/a" = KeyError property_id
        /\ in_directory property_id = false
        /\ snd (App.for_property unit Demo.run_report_malformed tt
                  Demo.august_1 Demo.august_31
                  [Demo.mp_regex; Demo.politics_regex]
                  ["424738282"; "424752920"] [] []) =
           [] ++ sent Demo.august_1 Demo.august_31
                   (list_prod known [Demo.mp_regex; Demo.politics_regex])).
Proof.
  apply (abort_point unit Demo.run_report_malformed tt Demo.august_1 Demo.august_31
           [Demo.mp_regex; Demo.politics_regex] ["424738282"; "424752920"] [] []).
  reflexivity.
Defined.

Example malformed_one_request :
  snd (App.for_property unit Demo.run_report_malformed tt
         Demo.august_1 Demo.august_31 [Demo.mp_regex; Demo.politics_regex]
         ["424738282"; "424752920"] [] []) =
  sent Demo.august_1 Demo.august_31 [("424738282", Demo.mp_regex)].
Proof. reflexivity. Qed.

(** X5 on a loader that refuses the upload. *)
Lemma refused_credentials_form :
  App.main unit Demo.new_client_refused Demo.run_report posix
    Demo.st_dataframe_error Demo.form [] =
  (Raise (ExternalError "invalid service account info"),
   [] ++ [spinner_enter; spinner_exit]).
Proof.
  apply (refused_credentials unit Demo.new_client_refused Demo.run_report posix
           Demo.st_dataframe_error Demo.form []).
  - exact form_started.
  - reflexivity.
Defined.

(** X6 on a selection with an id the directory does not hold between two
    it holds. *)
Lemma unknown_property_between :
  App.for_property unit Demo.run_report tt Demo.august_1 Demo.august_31
    [Demo.mp_regex] (["424738282"] ++ "000000000" :: ["424752920"]) [] [] =
  (Raise (KeyError "000000000"),
   [] ++ sent Demo.august_1 Demo.august_31
           (list_prod ["424738282"] [Demo.mp_regex])).
Proof.
  apply (unknown_property_key_error unit Demo.run_report tt
           Demo.august_1 Demo.august_31 [Demo.mp_regex]
           ["424738282"] "000000000" ["424752920"]
           [[Demo.august_record "DNA English" Demo.mp_regex]] []).
  - reflexivity.
  - repeat constructor.
  - reflexivity.
Defined.

Example main_unknown_site :
  App.main unit Demo.new_client Demo.run_report posix
    Demo.st_dataframe_error Demo.unknown_site_form [] =
  (Raise (KeyError "000000000"),
   [ spinner_enter; client_created [];
     run_report_sent
       (build_request "424738282" Demo.mp_regex Demo.august_1 Demo.august_31);
     spinner_exit ]).
Proof. reflexivity. Qed.

(** X8 on a run whose dataset holds a total of 2^64: the count of rows is
    the one thing the run told before it died in the table widget. *)
Lemma one_condition_per_run_beyond_64_bits :
  length (List.filter is_condition_event
            (snd (App.main unit Demo.new_client Demo.run_report_beyond_64_bits
                    posix Demo.st_dataframe_error Demo.example_form []))) =
  length (List.filter is_condition_event [])
  \/ (length (List.filter is_condition_event
                (snd (App.main unit Demo.new_client
                        Demo.run_report_beyond_64_bits posix
                        Demo.st_dataframe_error Demo.example_form []))) =
      length (List.filter is_condition_event []) + 1
      /\ exists final_data before,
           final_data <> []
           /\ Demo.st_dataframe_error (DataFrame_of final_data)
              = Some (ExternalError "OverflowError")
           /\ snd (App.main unit Demo.new_client Demo.run_report_beyond_64_bits
                     posix Demo.st_dataframe_error Demo.example_form []) =
              before ++ [st_success (length final_data); spinner_exit]).
Proof.
  apply (proj2 (one_condition_per_run unit Demo.new_client
                  Demo.run_report_beyond_64_bits posix Demo.st_dataframe_error
                  Demo.example_form [])
           (ExternalError "OverflowError")).
  reflexivity.
Defined.

Example conditions_beyond_64_bits :
  List.filter is_condition_event
    (snd (App.main unit Demo.new_client Demo.run_report_beyond_64_bits
            posix Demo.st_dataframe_error Demo.example_form []))
  = [st_success 1].
Proof. reflexivity. Qed.

(** X9 on a run that dies of a malformed total. *)
Lemma spinner_always_exits_malformed :
  exists mid,
    snd (App.main unit Demo.new_client Demo.run_report_malformed posix
           Demo.st_dataframe_error Demo.form [])
    = [] ++ spinner_enter :: mid ++ [spinner_exit]
    /\ List.filter is_spinner_event mid = [].
Proof.
  apply (spinner_always_exits unit Demo.new_client Demo.run_report_malformed
           posix Demo.st_dataframe_error Demo.form []).
  exact form_started.
Defined.

End RunEndFacts.

(** ** Numbers as text and the month column *)

Module TextFacts.

Import PyStr PyStrFacts GA4 App AppFacts.

Lemma length_append s t :
  String.length (s ++ t)%string = String.length s + String.length t.
Proof.
  induction s as [|c s IH]; simpl; [reflexivity | now rewrite IH].
Qed.

Lemma length_repeat_char c n : String.length (repeat_char c n) = n.
Proof.
  induction n as [|n IH]; simpl; [reflexivity | now rewrite IH].
Qed.

Lemma zfill_length width s :
  String.length (zfill width s) = Nat.max width (String.length s).
Proof.
  unfold zfill. destruct (width <=? String.length s) eqn:Hw.
  - apply Nat.leb_le in Hw. lia.
  - apply Nat.leb_gt in Hw.
    destruct s as [|c r]; [|destruct (is_sign c)];
      cbn [String.length] in *;
      rewrite ?length_append, length_repeat_char;
      cbn [String.length]; lia.
Qed.

Lemma zfill_wide width s : width <= String.length s -> zfill width s = s.
Proof.
  intros H. unfold zfill. apply Nat.leb_le in H. now rewrite H.
Qed.

(** X10: the Year_Month of a flattened row is as long as the year value,
    the hyphen and the month value at width two or more; and a month
    value of two characters or more, such as "08", is taken as it is. *)
Theorem year_month_width site_name regex row r :
  flatten_row site_name regex row = Ok r ->
  exists d0 d1 rest,
    dimension_values row = d0 :: d1 :: rest
    /\ String.length (Year_Month r) =
       String.length (dimension_value d0) + 1
       + Nat.max 2 (String.length (dimension_value d1))
    /\ (2 <= String.length (dimension_value d1) ->
        Year_Month r = (dimension_value d0 ++ "-" ++ dimension_value d1)%string).
Proof.
  intros H. apply flatten_row_ok in H.
  destruct H as (d0 & d1 & drest & m0 & m1 & mrest & tu & pv & Hd & _ & _ & _ & ->).
  exists d0, d1, drest. split; [exact Hd|]. cbn [Year_Month]. split.
  - rewrite !length_append, zfill_length. cbn [String.length]. lia.
  - intros Hwide. now rewrite (zfill_wide _ _ Hwide).
Qed.

Lemma length_string_of_uint d :
  String.length (NilEmpty.string_of_uint d) = Decimal.nb_digits d.
Proof. induction d; simpl; auto. Qed.

Lemma no_space_string_of_uint d :
  any int_isspace (NilEmpty.string_of_uint d) = false.
Proof. induction d; simpl; auto. Qed.

Lemma skip_no_space s :
  any int_isspace s = false -> rskip int_isspace (lskip int_isspace s) = s.
Proof.
  intros H.
  assert (Hl : forall t, any int_isspace t = false -> lskip int_isspace t = t).
  { intros [|c t] Ht; [reflexivity|]. simpl in Ht.
    apply orb_false_iff in Ht. destruct Ht as [Hc _]. simpl. now rewrite Hc. }
  assert (Hr : forall t, any int_isspace t = false -> rskip int_isspace t = t).
  { induction t as [|c t IH]; intros Ht; [reflexivity|]. simpl in Ht.
    apply orb_false_iff in Ht. destruct Ht as [Hc Ht].
    cbn [rskip]. now rewrite Hc, (IH Ht). }
  now rewrite (Hl _ H), (Hr _ H).
Qed.

(** Reading on from a digit: the value read so far is extended by the
    digits of [d]. *)
Lemma digits_from_uint_acc d acc n :
  digits_from true (Z.pos acc) n (NilEmpty.string_of_uint d) =
  Some (Z.pos (Pos.of_uint_acc d acc), n + Decimal.nb_digits d).
Proof.
  revert acc n.
  induction d; intros acc n; cbn [NilEmpty.string_of_uint Decimal.nb_digits];
    [cbn; f_equal; f_equal; lia|..];
    read_digit;
    match goal with
    | |- digits_from true ?v _ _ = Some (Z.pos (Pos.of_uint_acc _ ?a), _) =>
        replace v with (Z.pos a) by lia
    end;
    rewrite IHd; f_equal; f_equal; lia.
Qed.

Lemma digits_from_uint_zero d n :
  digits_from true 0%Z n (NilEmpty.string_of_uint d) =
  Some (Z.of_N (Pos.of_uint d), n + Decimal.nb_digits d).
Proof.
  revert n.
  induction d; intros n; cbn [NilEmpty.string_of_uint Decimal.nb_digits];
    [cbn; f_equal; f_equal; lia|..];
    read_digit.
  1:{ change (10 * 0 + 0)%Z with 0%Z. rewrite IHd. f_equal. f_equal. lia. }
  all: match goal with
       | |- digits_from true ?v _ _ = Some (Z.of_N (N.pos (Pos.of_uint_acc _ ?a)), _) =>
           replace v with (Z.pos a) by lia
       end;
    rewrite digits_from_uint_acc; f_equal; f_equal; lia.
Qed.

Lemma digits_from_uint d :
  d <> Decimal.Nil ->
  digits_from false 0%Z 0 (NilEmpty.string_of_uint d) =
  Some (Z.of_N (Pos.of_uint d), Decimal.nb_digits d).
Proof.
  intros Hd. pose proof (digits_from_uint_zero d 0) as H. cbn [Nat.add] in H.
  rewrite <- H.
  destruct d; [contradiction|..]; reflexivity.
Qed.

Lemma int_of_minus r :
  rskip int_isspace (lskip int_isspace (String "-" r)) = String "-" r ->
  int (String "-" r) =
  match digits_from false 0%Z 0 r with
  | Some (v, n) =>
      if n <=? int_max_str_digits then Ok (- v)%Z
      else Raise (ValueError (String "-" r))
  | None => Raise (ValueError (String "-" r))
  end.
Proof.
  intros H. unfold int. now rewrite H.
Qed.

Lemma int_of_digit c r :
  isdigit c = true ->
  rskip int_isspace (lskip int_isspace (String c r)) = String c r ->
  int (String c r) =
  match digits_from false 0%Z 0 (String c r) with
  | Some (v, n) =>
      if n <=? int_max_str_digits then Ok v
      else Raise (ValueError (String c r))
  | None => Raise (ValueError (String c r))
  end.
Proof.
  intros Hc H. unfold int. rewrite H.
  destruct c as [[] [] [] [] [] [] [] []]; try discriminate Hc; reflexivity.
Qed.

Lemma int_string_of_uint d :
  d <> Decimal.Nil ->
  Decimal.nb_digits d <= int_max_str_digits ->
  int (NilEmpty.string_of_uint d) = Ok (Z.of_N (Pos.of_uint d)).
Proof.
  intros Hd Hlen.
  pose proof (digits_from_uint d Hd) as Hdigits.
  pose proof (skip_no_space _ (no_space_string_of_uint d)) as Hstrip.
  destruct (NilEmpty.string_of_uint d) as [|c r] eqn:Hs.
  { destruct d; try contradiction; discriminate Hs. }
  rewrite int_of_digit; [| |exact Hstrip].
  - rewrite Hdigits. apply Nat.leb_le in Hlen. now rewrite Hlen.
  - destruct d; try contradiction; simpl in Hs; injection Hs as <- _; reflexivity.
Qed.

Lemma string_of_uint_nonnil d :
  d <> Decimal.Nil -> NilZero.string_of_uint d = NilEmpty.string_of_uint d.
Proof. destruct d; [contradiction|..]; reflexivity. Qed.

(** X11: a number written by [str] and read by [int] is the number, as
    long as its text stays within the digit limit of [int]; so the totals
    of the export read back as they were. *)
Theorem int_str_round_trip z :
  String.length (str_of_int z) <= int_max_str_digits ->
  int (str_of_int z) = Ok z.
Proof.
  unfold str_of_int. destruct z as [|p|p]; cbn [Z.to_int NilZero.string_of_int].
  - reflexivity.
  - intros Hlen.
    pose proof (Unsigned.to_uint_nonnil p) as Hnil.
    rewrite string_of_uint_nonnil in * by exact Hnil.
    rewrite length_string_of_uint in Hlen.
    rewrite (int_string_of_uint _ Hnil Hlen), Unsigned.of_to. reflexivity.
  - intros Hlen.
    pose proof (Unsigned.to_uint_nonnil p) as Hnil.
    rewrite string_of_uint_nonnil in * by exact Hnil.
    cbn [String.length] in Hlen. rewrite length_string_of_uint in Hlen.
    rewrite int_of_minus.
    + rewrite (digits_from_uint _ Hnil).
      assert (Hle : (Decimal.nb_digits (Pos.to_uint p) <=? int_max_str_digits) = true)
        by (apply Nat.leb_le; lia).
      rewrite Hle, Unsigned.of_to. reflexivity.
    + apply skip_no_space. cbn [any]. now rewrite no_space_string_of_uint.
Qed.

(** [str] writes different numbers differently. *)
Lemma to_int_not_nil z :
  Z.to_int z <> Decimal.Pos Decimal.Nil /\ Z.to_int z <> Decimal.Neg Decimal.Nil.
Proof.
  destruct z as [|p|p]; cbn [Z.to_int]; split; intros H; try discriminate H;
    injection H as H; now apply (Unsigned.to_uint_nonnil p).
Qed.

Lemma str_of_int_inj z z' : str_of_int z = str_of_int z' -> z = z'.
Proof.
  unfold str_of_int. intros H.
  apply (f_equal NilZero.int_of_string) in H.
  destruct (to_int_not_nil z) as [Hp Hn], (to_int_not_nil z') as [Hp' Hn'].
  rewrite !NilZero.isi in H by assumption.
  injection H as H. now apply DecimalZ.to_int_inj.
Qed.

(** X11 on a negative total. *)
Lemma int_str_round_trip_negative :
  int (str_of_int (-150)) = Ok (-150)%Z.
Proof.
  apply (int_str_round_trip (-150)).
  unfold int_max_str_digits. simpl. lia.
Defined.

(** X10 on the row of the worked example. *)
Lemma year_month_width_august :
  exists d0 d1 rest,
    dimension_values Demo.august_row = d0 :: d1 :: rest
    /\ String.length (Year_Month (Demo.august_record "DNA English" Demo.mp_regex)) =
       String.length (dimension_value d0) + 1
       + Nat.max 2 (String.length (dimension_value d1))
    /\ (2 <= String.length (dimension_value d1) ->
        Year_Month (Demo.august_record "DNA English" Demo.mp_regex) =
        (dimension_value d0 ++ "-" ++ dimension_value d1)%string).
Proof.
  exact (year_month_width "DNA English" Demo.mp_regex Demo.august_row
           (Demo.august_record "DNA English" Demo.mp_regex) eq_refl).
Defined.

End TextFacts.

(** ** Requests and their parameters *)

Module RequestFacts.

Import Datetime DatetimeFacts GA4 App.

Local Open Scope Z_scope.

Lemma digit_char_inj a b : digit_char a = digit_char b -> a mod 10 = b mod 10.
Proof.
  unfold digit_char. intros H.
  assert (Ha : 0 <= a mod 10 < 10) by (apply Z.mod_pos_bound; lia).
  assert (Hb : 0 <= b mod 10 < 10) by (apply Z.mod_pos_bound; lia).
  apply (f_equal nat_of_ascii) in H.
  rewrite !nat_ascii_embedding in H by lia. lia.
Qed.

Lemma two_digits_inj m m' :
  0 <= m <= 99 -> 0 <= m' <= 99 -> two_digits m = two_digits m' -> m = m'.
Proof.
  intros Hm Hm' H. unfold two_digits in H.
  injection H as H1 H0.
  apply digit_char_inj in H1, H0.
  Z.to_euclidean_division_equations. lia.
Qed.

Lemma date_ext (d d' : date) :
  year d = year d' -> month d = month d' -> day d = day d' -> d = d'.
Proof.
  destruct d as [y m dd ok], d' as [y' m' dd' ok']. simpl.
  intros -> -> ->. f_equal. apply UIP_dec. apply Bool.bool_dec.
Qed.

(** Two texts with tails of one length are equal part by part. *)
Lemma append_tail_inj (s s' t t' : string) :
  String.length t = String.length t' ->
  (s ++ t)%string = (s' ++ t')%string -> s = s' /\ t = t'.
Proof.
  revert s'. induction s as [|c s IH]; intros [|c' s'] Hlen H; cbn [append] in H.
  - now split.
  - exfalso. subst t. cbn [String.length] in Hlen.
    rewrite TextFacts.length_append in Hlen. lia.
  - exfalso. subst t'. cbn [String.length] in Hlen.
    rewrite TextFacts.length_append in Hlen. lia.
  - injection H as -> H. destruct (IH s' Hlen H) as [-> ->]. now split.
Qed.

(** The text [strftime] writes for a date tells the date, padded year or
    not: month and day take the last six characters, the year the rest. *)
Lemma strftime_inj d d' :
  strftime "%Y-%m-%d" d = strftime "%Y-%m-%d" d' -> d = d'.
Proof.
  intros H. destruct (date_bounds d) as (Hy & Hm & Hd).
  destruct (date_bounds d') as (Hy' & Hm' & Hd').
  rewrite !strftime_year_month_day in H.
  apply append_tail_inj in H; [|reflexivity].
  destruct H as [Hyear Htail].
  unfold two_digits in Htail. cbn [append] in Htail.
  injection Htail as M1 M0 D1 D0.
  apply date_ext.
  - now apply TextFacts.str_of_int_inj.
  - apply two_digits_inj; [lia | lia |]. unfold two_digits. congruence.
  - apply two_digits_inj; [lia | lia |]. unfold two_digits. congruence.
Qed.

Lemma NoDup_list_prod {A B : Type} (xs : list A) (ys : list B) :
  NoDup xs -> NoDup ys -> NoDup (list_prod xs ys).
Proof.
  intros Hxs Hys. induction Hxs as [|x xs Hx _ IH]; [constructor|].
  cbn [list_prod]. apply NoDup_app.
  - apply Injective_map_NoDup_in; [|exact Hys]. congruence.
  - exact IH.
  - intros [a b] Hin Hin'. apply in_map_iff in Hin.
    destruct Hin as (y & Heq & _). injection Heq as <- <-.
    apply in_prod_iff in Hin'. now destruct Hin'.
Qed.

Lemma build_request_inj p r s e p' r' s' e' :
  build_request p r s e = build_request p' r' s' e' ->
  p = p' /\ r = r' /\ s = s' /\ e = e'.
Proof.
  intros H. unfold build_request in H.
  remember (strftime "%Y-%m-%d" s) as a eqn:Ha.
  remember (strftime "%Y-%m-%d" s') as a' eqn:Ha'.
  remember (strftime "%Y-%m-%d" e) as b eqn:Hb.
  remember (strftime "%Y-%m-%d" e') as b' eqn:Hb'.
  cbn [append] in H. injection H as Hp Hs He Hr. subst a b a' b'.
  repeat split; try assumption; now apply strftime_inj.
Qed.

(** X12: a request carries its parameters without loss: two calls build
    the same request only for the same property id, the same regex and
    the same two dates. *)
Theorem request_determines_parameters property_id regex start_date end_date
    property_id' regex' start_date' end_date' :
  build_request property_id regex start_date end_date =
  build_request property_id' regex' start_date' end_date' ->
  property_id = property_id' /\ regex = regex'
  /\ start_date = start_date' /\ end_date = end_date'.
Proof. apply build_request_inj. Qed.

(** X13: over properties that are all different and regexes that are all
    different, the requests of the matrix are all different: no request
    is sent twice. *)
Theorem no_request_twice start_date end_date sites regex_list :
  NoDup sites -> NoDup regex_list ->
  NoDup (map (request_of start_date end_date) (list_prod sites regex_list)).
Proof.
  intros Hsites Hregexes.
  apply Injective_map_NoDup_in; [|now apply NoDup_list_prod].
  intros [p r] [p' r'] _ _ Heq. unfold request_of in Heq. cbn [fst snd] in Heq.
  apply build_request_inj in Heq. destruct Heq as (-> & -> & _). reflexivity.
Qed.

(** X12 on the request of the worked example. *)
Lemma request_determines_parameters_example :
  "424738282"%string = "424738282"%string
  /\ Demo.mp_regex = Demo.mp_regex
  /\ Demo.august_1 = Demo.august_1 /\ Demo.august_31 = Demo.august_31.
Proof.
  exact (request_determines_parameters "424738282" Demo.mp_regex
           Demo.august_1 Demo.august_31 "424738282" Demo.mp_regex
           Demo.august_1 Demo.august_31 eq_refl).
Defined.

(** X13 on the matrix of the two-line form. *)
Lemma no_request_twice_form :
  NoDup (map (request_of Demo.august_1 Demo.august_31)
           (list_prod ["424738282"%string; "424752920"%string]
              [Demo.mp_regex; Demo.politics_regex])).
Proof.
  apply (no_request_twice Demo.august_1 Demo.august_31
           ["424738282"%string; "424752920"%string]
           [Demo.mp_regex; Demo.politics_regex]).
  - repeat constructor; simpl; intuition discriminate.
  - repeat constructor; simpl; intuition discriminate.
Defined.

End RequestFacts.

(** ** The export read back *)

Module ExportFacts.

Import PyStr PyStrFacts Pandas App AsSpecified Reader.

Lemma append_cancel_l s x y : (s ++ x = s ++ y)%string -> x = y.
Proof.
  induction s as [|c s IH]; simpl; [easy|]. intros H. injection H as H. auto.
Qed.

Section Platform.

Variable os : os_name.

(** A character that ends a field is one a plain field cannot hold. *)
Lemma field_end_not_plain c : field_end os c = true ->
  (Ascii.eqb c delimiter || Ascii.eqb c quotechar || line_end_char os c) = true.
Proof.
  unfold field_end, line_end_char, linesep.
  destruct os;
    destruct (Ascii.eqb c delimiter), (Ascii.eqb c quotechar), (Ascii.eqb c CR),
      (Ascii.eqb c LF); simpl; congruence.
Qed.

Lemma field_end_not_quote c :
  field_end os c = true -> Ascii.eqb c quotechar = false.
Proof.
  destruct (Ascii.eqb c quotechar) eqn:E; [|reflexivity].
  apply Ascii.eqb_eq in E. subst c. destruct os; discriminate.
Qed.

Lemma plain_cons c s :
  plain os (String c s) = true ->
  (Ascii.eqb c delimiter || Ascii.eqb c quotechar || line_end_char os c) = false
  /\ plain os s = true.
Proof.
  unfold plain. cbn [any]. intros H. apply negb_true_iff in H.
  apply orb_false_iff in H. destruct H as [Hc Hs]. split; [exact Hc|].
  now rewrite Hs.
Qed.

(** Two plain fields that start the same text, each followed by a field
    end, are the same field. *)
Lemma plain_cancel a b x y :
  plain os a = true -> plain os b = true ->
  at_field_end os x -> at_field_end os y ->
  (a ++ x = b ++ y)%string -> a = b /\ x = y.
Proof.
  revert b. induction a as [|c a IH]; intros b Ha Hb Hx Hy H.
  - destruct b as [|c' b]; [now split|]. exfalso.
    cbn [append] in H. subst x. cbn [at_field_end] in Hx.
    apply field_end_not_plain in Hx. apply plain_cons in Hb. destruct Hb. congruence.
  - destruct b as [|c' b].
    + exfalso. cbn [append] in H. subst y. cbn [at_field_end] in Hy.
      apply field_end_not_plain in Hy. apply plain_cons in Ha. destruct Ha. congruence.
    + cbn [append] in H. injection H as -> H.
      apply plain_cons in Ha, Hb. destruct Ha as [_ Ha], Hb as [_ Hb].
      destruct (IH b Ha Hb Hx Hy H) as [-> ->]. now split.
Qed.

Lemma at_field_end_after_quote t : at_field_end os t -> after_quote t.
Proof.
  destruct t as [|c t]; [easy|]. cbn. apply field_end_not_quote.
Qed.

(** Two fields written between quotes that start the same text, each
    closing quote followed by something else than a quote, are the same
    field. *)
Lemma quoted_cancel a b x y :
  after_quote x -> after_quote y ->
  (double_quotes a ++ String quotechar x
   = double_quotes b ++ String quotechar y)%string ->
  a = b /\ x = y.
Proof.
  assert (Hq : forall t, after_quote (String quotechar t) -> False).
  { intros t Ht. cbn in Ht. discriminate Ht. }
  revert b. induction a as [|c a IH]; intros b Hx Hy H.
  - destruct b as [|c' b]; cbn [double_quotes append] in H.
    + injection H as ->. now split.
    + exfalso. destruct (Ascii.eqb c' quotechar) eqn:E; cbn [append] in H.
      * apply Ascii.eqb_eq in E. subst c'. injection H as H. subst x.
        exact (Hq _ Hx).
      * injection H as H _. subst c'. rewrite Ascii.eqb_refl in E. discriminate.
  - cbn [double_quotes] in H. destruct (Ascii.eqb c quotechar) eqn:Ec.
    + apply Ascii.eqb_eq in Ec. subst c. cbn [append] in H.
      destruct b as [|c' b]; cbn [double_quotes append] in H.
      * exfalso. injection H as H. subst y. exact (Hq _ Hy).
      * destruct (Ascii.eqb c' quotechar) eqn:E; cbn [append] in H.
        -- apply Ascii.eqb_eq in E. subst c'. injection H as H.
           destruct (IH b Hx Hy H) as [-> ->]. now split.
        -- exfalso. injection H as H _. subst c'.
           rewrite Ascii.eqb_refl in E. discriminate.
    + cbn [append] in H.
      destruct b as [|c' b]; cbn [double_quotes append] in H.
      * exfalso. injection H as H _. subst c. rewrite Ascii.eqb_refl in Ec.
        discriminate.
      * destruct (Ascii.eqb c' quotechar) eqn:E; cbn [append] in H.
        -- exfalso. apply Ascii.eqb_eq in E. subst c'. injection H as H _.
           subst c. rewrite Ascii.eqb_refl in Ec. discriminate.
        -- injection H as -> H. destruct (IH b Hx Hy H) as [-> ->]. now split.
Qed.

Lemma not_plain_quote s : plain os (String quotechar s) = false.
Proof. reflexivity. Qed.

(** A written field, followed by a field end, tells the field. *)
Lemma field_cancel a b x y :
  at_field_end os x -> at_field_end os y ->
  (csv_field os a ++ x = csv_field os b ++ y)%string -> a = b /\ x = y.
Proof.
  intros Hx Hy. unfold csv_field, quoted.
  destruct (plain os a) eqn:Ha, (plain os b) eqn:Hb; intros H.
  - now apply plain_cancel.
  - exfalso. cbn [append] in H. destruct a as [|c a]; cbn [append] in H.
    + subst x. cbn [at_field_end] in Hx.
      apply field_end_not_quote in Hx. discriminate Hx.
    + injection H as -> _. rewrite not_plain_quote in Ha. discriminate.
  - exfalso. cbn [append] in H. destruct b as [|c b]; cbn [append] in H.
    + subst y. cbn [at_field_end] in Hy.
      apply field_end_not_quote in Hy. discriminate Hy.
    + injection H as <- _. rewrite not_plain_quote in Hb. discriminate.
  - cbn [append] in H. injection H as H. rewrite !append_assoc in H.
    cbn [append] in H.
    apply quoted_cancel; [now apply at_field_end_after_quote ..|exact H].
Qed.

(** A written record, followed by a field end, tells the record. *)
Lemma line_cancel r r' t t' :
  at_field_end os t -> at_field_end os t' ->
  (csv_line os r ++ t = csv_line os r' ++ t')%string -> r = r' /\ t = t'.
Proof.
  intros Ht Ht'. destruct r as [site ym users views regex].
  destruct r' as [site' ym' users' views' regex'].
  unfold csv_line, fields_of.
  cbn [map join Site Year_Month Total_Users Pageviews Regex].
  rewrite !append_assoc. cbn [append]. intros H.
  apply field_cancel in H; [|reflexivity..]. destruct H as [-> H].
  injection H as H.
  apply field_cancel in H; [|reflexivity..]. destruct H as [-> H].
  injection H as H.
  apply field_cancel in H; [|reflexivity..]. destruct H as [Hu H].
  injection H as H.
  apply field_cancel in H; [|reflexivity..]. destruct H as [Hv H].
  injection H as H.
  apply field_cancel in H; [|assumption..]. destruct H as [-> ->].
  apply TextFacts.str_of_int_inj in Hu, Hv. subst. now split.
Qed.

Lemma linesep_field_end t : at_field_end os (linesep os ++ t).
Proof. destruct os; reflexivity. Qed.

Lemma linesep_not_empty t : (linesep os ++ t)%string <> EmptyString.
Proof. destruct os; discriminate. Qed.

Lemma append_empty s t : (s ++ t)%string = EmptyString -> t = EmptyString.
Proof. destruct s; [easy | discriminate]. Qed.

Lemma records_cancel data data' :
  concat_str (map (fun r => csv_line os r ++ linesep os)%string data) =
  concat_str (map (fun r => csv_line os r ++ linesep os)%string data') ->
  data = data'.
Proof.
  revert data'. induction data as [|r data IH]; intros [|r' data'];
    cbn [map concat_str]; intros H.
  - reflexivity.
  - exfalso. symmetry in H. rewrite append_assoc in H.
    apply append_empty in H. exact (linesep_not_empty _ H).
  - exfalso. rewrite append_assoc in H.
    apply append_empty in H. exact (linesep_not_empty _ H).
  - rewrite !append_assoc in H.
    apply line_cancel in H; [|apply linesep_field_end..].
    destruct H as [-> H]. apply append_cancel_l in H. now rewrite (IH _ H).
Qed.

Lemma csv_text_inj data data' :
  csv_text os data = csv_text os data' -> data = data'.
Proof.
  unfold csv_text. intros H.
  apply append_cancel_l, append_cancel_l in H. now apply records_cancel in H.
Qed.

End Platform.

Lemma cons_inj {A : Type} (a b : A) l l' : a :: l = b :: l' -> a = b /\ l = l'.
Proof. intros H. injection H as -> ->. now split. Qed.

Lemma encode_char_cancel c c' t t' :
  encode_char c ++ t = encode_char c' ++ t' -> c = c' /\ t = t'.
Proof.
  unfold encode_char, code.
  pose proof (nat_ascii_bounded c) as Hc. pose proof (nat_ascii_bounded c') as Hc'.
  assert (Hbyte : forall a b, byte_of_ascii a = byte_of_ascii b -> a = b).
  { intros a b Hab. apply (f_equal ascii_of_byte) in Hab.
    now rewrite !ascii_of_byte_of_ascii in Hab. }
  assert (Hdiv : forall n, n < 256 -> 192 + n / 64 < 256).
  { intros n Hn. assert (n / 64 < 4) by (apply Nat.Div0.div_lt_upper_bound; lia). lia. }
  assert (Hmod : forall n, 128 + n mod 64 < 256).
  { intros n. pose proof (Nat.mod_upper_bound n 64). lia. }
  destruct (nat_of_ascii c <? 128) eqn:E, (nat_of_ascii c' <? 128) eqn:E';
    cbn [app]; intros H; apply cons_inj in H; destruct H as [H1 H].
  - apply Hbyte in H1. now split.
  - exfalso. apply Hbyte in H1. subst c.
    rewrite nat_ascii_embedding in E by (apply Hdiv; exact Hc').
    apply Nat.ltb_lt in E. lia.
  - exfalso. apply Hbyte in H1. subst c'.
    rewrite nat_ascii_embedding in E' by (apply Hdiv; exact Hc).
    apply Nat.ltb_lt in E'. lia.
  - apply cons_inj in H. destruct H as [H2 ->]. apply Hbyte in H1, H2.
    apply (f_equal nat_of_ascii) in H1, H2.
    rewrite !nat_ascii_embedding in H1 by (apply Hdiv; assumption).
    rewrite !nat_ascii_embedding in H2 by apply Hmod.
    split; [|reflexivity].
    rewrite <- (ascii_nat_embedding c), <- (ascii_nat_embedding c'). f_equal.
    rewrite (Nat.div_mod_eq (nat_of_ascii c) 64),
      (Nat.div_mod_eq (nat_of_ascii c') 64). lia.
Qed.

Lemma encode_utf8_inj s s' : encode_utf8 s = encode_utf8 s' -> s = s'.
Proof.
  revert s'. induction s as [|c s IH]; intros [|c' s']; cbn [encode_utf8]; intros H.
  - reflexivity.
  - exfalso. unfold encode_char in H.
    destruct (code c' <? 128); cbn [app] in H; now apply (@nil_cons byte) in H.
  - exfalso. unfold encode_char in H.
    destruct (code c <? 128); cbn [app] in H; symmetry in H;
      now apply (@nil_cons byte) in H.
  - apply encode_char_cancel in H. destruct H as [-> H]. now rewrite (IH _ H).
Qed.

(** X14: the bytes offered for download tell the dataset: two datasets
    exported to the same bytes are the same list of records, with the
    same texts and the same numbers in the same order. *)
Theorem export_lossless os data data' :
  encode_utf8 (to_csv (linesep os) (DataFrame_of data)) =
  encode_utf8 (to_csv (linesep os) (DataFrame_of data')) ->
  data = data'.
Proof.
  intros H. apply encode_utf8_inj in H.
  rewrite !AppFacts.to_csv_text in H. now apply csv_text_inj in H.
Qed.

(** X14 on the record with a comma in its regex. *)
Lemma export_lossless_comma :
  [Demo.comma_record] = [Demo.comma_record].
Proof.
  exact (export_lossless posix [Demo.comma_record] [Demo.comma_record] eq_refl).
Defined.

End ExportFacts.

(** ** Line endings of the regex text *)

Module LineEndingFacts.

Import PyStr PyStrFacts App RegexTextFacts.

Lemma splitlines_from_cr cur r :
  (forall r', r <> String "010" r') ->
  splitlines_from cur (String "013" r) = cur :: splitlines_from EmptyString r.
Proof.
  intros Hr.
  destruct (splitlines_from_boundary cur "013" r eq_refl) as (r' & Heq & [->|[_ ->]]);
    [exact Heq|]. now destruct (Hr r').
Qed.

Lemma join_not_lf sep lines r' :
  (forall line, In line lines -> any islinebreak line = false) ->
  (forall t, sep <> String "010" t) ->
  join sep lines <> String "010" r'.
Proof.
  intros Hlines Hsep H.
  destruct lines as [|line rest]; [discriminate H|].
  assert (Hline : any islinebreak line = false) by (apply Hlines; now left).
  assert (Hhead : forall t, (line ++ t)%string = String "010" r' -> line = EmptyString).
  { intros t Ht. destruct line as [|c line]; [reflexivity|].
    cbn [append] in Ht. injection Ht as -> _. discriminate Hline. }
  destruct rest as [|line2 rest].
  - cbn [join] in H. subst line. discriminate Hline.
  - change (join sep (line :: line2 :: rest))
      with (line ++ sep ++ join sep (line2 :: rest))%string in H.
    pose proof (Hhead _ H) as ->. cbn [append] in H.
    destruct sep as [|c sep]; [|cbn [append] in H; injection H as -> _;
                                 now apply (Hsep sep)].
    cbn [append] in H. revert H.
    change (join EmptyString (line2 :: rest) <> String "010" r').
    clear Hhead Hline.
    assert (Hrest : forall l, In l (line2 :: rest) -> any islinebreak l = false)
      by (intros l Hl; apply Hlines; now right).
    clear Hlines. revert line2 Hrest.
    induction rest as [|line3 rest IH]; intros line2 Hrest H.
    + cbn [join] in H. subst line2.
      specialize (Hrest _ (or_introl eq_refl)). discriminate Hrest.
    + change (join EmptyString (line2 :: line3 :: rest))
        with (line2 ++ join EmptyString (line3 :: rest))%string in H.
      destruct line2 as [|c line2].
      * cbn [append] in H. apply (IH line3); [|exact H].
        intros l Hl. apply Hrest. now right.
      * cbn [append] in H. injection H as -> _.
        specialize (Hrest _ (or_introl eq_refl)). discriminate Hrest.
Qed.

(** X15: lines that end in CR LF, or in CR alone, give the same list of
    regexes as lines that end in LF: the lines in their order, each
    stripped, without the blank ones. *)
Theorem line_endings lines sep :
  sep = String "013" (String "010" EmptyString) \/ sep = String "013" EmptyString ->
  (forall line, In line lines -> any islinebreak line = false) ->
  regex_list_of (join sep lines) =
  map strip (List.filter (fun r => negb (is_empty (strip r))) lines).
Proof.
  intros Hsep Hlines. unfold regex_list_of. f_equal.
  induction lines as [|line rest IH]; [reflexivity|].
  assert (Hline : any islinebreak line = false) by (apply Hlines; now left).
  assert (Hrest : forall l, In l rest -> any islinebreak l = false)
    by (intros l Hl; apply Hlines; now right).
  specialize (IH Hrest).
  destruct rest as [|line2 rest'].
  - cbn [join]. unfold splitlines.
    rewrite <- (append_empty_r line) at 1.
    rewrite (splitlines_from_line _ _ _ Hline). cbn [append splitlines_from].
    destruct line; reflexivity.
  - change (join sep (line :: line2 :: rest'))
      with (line ++ sep ++ join sep (line2 :: rest'))%string.
    unfold splitlines in *.
    rewrite (splitlines_from_line _ _ _ Hline). cbn [append].
    destruct Hsep as [->| ->]; cbn [append].
    + change (splitlines_from line
                (String "013" (String "010"
                   (join (String "013" (String "010" EmptyString)) (line2 :: rest')))))
        with (line :: splitlines_from EmptyString
                        (join (String "013" (String "010" EmptyString))
                           (line2 :: rest'))).
      cbn [List.filter]. now rewrite IH.
    + rewrite splitlines_from_cr.
      * cbn [List.filter]. now rewrite IH.
      * intros r'. apply join_not_lf; [exact Hrest|]. intros t H. discriminate H.
Qed.

(** X15 on three typed lines that end in CR LF. *)
Lemma line_endings_typed :
  regex_list_of (join (String "013" (String "010" EmptyString)) Demo.typed_lines) =
  map strip (List.filter (fun r => negb (is_empty (strip r))) Demo.typed_lines).
Proof.
  apply (line_endings Demo.typed_lines).
  - left. reflexivity.
  - intros line Hin. simpl in Hin.
    destruct Hin as [<-|[<-|[<-|[]]]]; reflexivity.
Defined.

Example regex_list_crlf :
  regex_list_of (join (String "013" (String "010" EmptyString)) Demo.typed_lines) =
  [Demo.mp_regex; Demo.politics_regex].
Proof. reflexivity. Qed.

End LineEndingFacts.
